(** * Access and social-graph model of the blog application

    A shallow embedding of [app/models.py]: the permission bit-mask and
    the provisioned roles, the [User] methods that evaluate permissions,
    issue and verify signed tokens and maintain the follow graph, and the
    body listeners of [Post] and [Comment].

    Python integers are unbounded, so they are [Z] and [&] is [Z.land].
    The [follows] table has the composite primary key
    (follower_id, followed_id); it is a finite map from that pair to the
    row's timestamp.  Exceptions are explicit: a method that can raise
    returns a [res]. *)

From Stdlib Require Import ZArith.
From stdpp Require Import base option list gmap fin_maps strings pretty.

Local Open Scope Z_scope.
Local Open Scope string_scope.

(** ** Python values, exceptions *)

Module Py.

(** The values of the fields of a JSON object, as Python objects.  The
    methods compare them with integers, test them against [None] and
    call string methods on them, and nothing else: a float is kept as
    the integer that it is equal to, if it is a whole number (in Python
    [2.0 == 2]), and an array or an object inside a field is opaque. *)
Inductive value :=
| PNone
| PBool (b : bool)
| PInt (n : Z)
| PFloat (whole : option Z)
| PStr (s : string)
| PContainer.

#[global] Instance value_eq_dec : EqDecision value.
Proof. solve_decision. Defined.

(** [a != n] for an integer [n]; in Python [True == 1] and
    [False == 0]. *)
Definition ne (a : value) (n : Z) : bool :=
  match a with
  | PInt m => negb (bool_decide (m = n))
  | PBool b => negb (bool_decide ((if b then 1 else 0) = n))
  | PFloat (Some m) => negb (bool_decide (m = n))
  | _ => true
  end.

(** [d.get(k)]: the value stored under [k], [None] when there is none. *)
Definition get (d : gmap string value) (k : string) : value :=
  match d !! k with
  | Some v => v
  | None => PNone
  end.

Inductive exn :=
| BadSignature
| SignatureExpired
| IntegrityError
| AttributeError.

(** The outcome of a call: a returned value or a raised exception. *)
Inductive res (A : Type) :=
| Ok (a : A)
| Raise (e : exn).
Arguments Ok {A} a.
Arguments Raise {A} e.

Definition bind {A B} (c : res A) (k : A -> res B) : res B :=
  match c with
  | Ok a => k a
  | Raise e => Raise e
  end.

(** [try: x = c  except: h] followed by [k x]; the bare [except:] of the
    source catches every exception. *)
Definition try_except {A B} (c : res A) (h : res B) (k : A -> res B) : res B :=
  match c with
  | Ok a => k a
  | Raise _ => h
  end.

Definition returns {A} (c : res A) : Prop := exists a, c = Ok a.

(** A decoded JSON document: an object, or a document that is not an
    object (a scalar, or for [PContainer] an array). *)
Inductive json :=
| JObject (fields : gmap string value)
| JOther (v : value).

#[global] Instance json_eq_dec : EqDecision json.
Proof. solve_decision. Defined.

(** [data.get(k)] on a decoded document: only a dictionary has [get]. *)
Definition json_get (data : json) (k : string) : res value :=
  match data with
  | JObject fields => Ok (get fields k)
  | JOther _ => Raise AttributeError
  end.

End Py.

(** ** Permissions and roles *)

Module Permission.
Definition FOLLOW : Z := 0x01.
Definition COMMENT : Z := 0x02.
Definition WRITE_ARTICLES : Z := 0x04.
Definition MODERATE_COMMENTS : Z := 0x08.
Definition ADMINISTER : Z := 0x80.

(** The five masks that the class defines. *)
Definition defined : list Z :=
  [FOLLOW; COMMENT; WRITE_ARTICLES; MODERATE_COMMENTS; ADMINISTER].
End Permission.

Module Role.

Record t := mk {
  id : Z;
  name : string;
  default : bool;
  permissions : Z
}.

#[global] Instance eq_dec : EqDecision t.
Proof. solve_decision. Defined.

(** The [roles] dictionary of [insert_roles], in the order it is
    written: name, mask, default flag. *)
Definition roles : list (string * (Z * bool)) :=
  [ ("User",
      (Z.lor (Z.lor Permission.FOLLOW Permission.COMMENT)
             Permission.WRITE_ARTICLES, true));
    ("Moderator",
      (Z.lor (Z.lor (Z.lor Permission.FOLLOW Permission.COMMENT)
                    Permission.WRITE_ARTICLES)
             Permission.MODERATE_COMMENTS, false));
    ("Administrator", (0xff, false)) ].

(** The key that the autoincrementing primary key gives a new row. *)
Definition next_id (tbl : list t) : Z :=
  1 + foldr Z.max 0 (map id tbl).

(** [Role.query.filter_by(name=r).first()] *)
Definition first_by_name (r : string) (tbl : list t) : option t :=
  List.find (fun x => bool_decide (name x = r)) tbl.

(** [Role.query.filter_by(permissions=p).first()] *)
Definition first_by_permissions (p : Z) (tbl : list t) : option t :=
  List.find (fun x => bool_decide (permissions x = p)) tbl.

(** [Role.query.filter_by(default=True).first()] *)
Definition first_by_default (tbl : list t) : option t :=
  List.find (fun x => default x) tbl.

(** Writes the mask and the flag into the first row named [r]. *)
Fixpoint update (r : string) (p : Z) (d : bool) (tbl : list t) : list t :=
  match tbl with
  | [] => []
  | x :: rest =>
      if bool_decide (name x = r)
      then mk (id x) (name x) d p :: rest
      else x :: update r p d rest
  end.

(** One turn of the loop of [insert_roles]: look the role up by name,
    create it when it is missing, set its mask and flag, add it. *)
Definition upsert (tbl : list t) (entry : string * (Z * bool)) : list t :=
  let r := entry.1 in
  match first_by_name r tbl with
  | None => tbl ++ [mk (next_id tbl) r entry.2.2 entry.2.1]
  | Some _ => update r entry.2.1 entry.2.2 tbl
  end.

Definition insert_roles (tbl : list t) : list t :=
  foldl upsert tbl roles.

(** The states of the [roles] table: it is created empty and only
    [insert_roles] writes to it. *)
Inductive provisioned : list t -> Prop :=
| provisioned_created : provisioned []
| provisioned_insert tbl : provisioned tbl -> provisioned (insert_roles tbl).

End Role.

(** ** Signed, expiring tokens *)

Module Serializer.

(** [TimedJSONWebSignatureSerializer] of the itsdangerous package, which
    is not part of the repository.  Modelled from the contract that the
    docstrings of [generate_confirmation_token] and [confirm] state:
    [dumps] signs a payload together with its issue and expiry times
    under the secret key, [loads] checks the signature and the expiry
    time and returns the payload, raising otherwise.  The payload is any
    JSON document.  The signature is symbolic: it records the key and
    the content it was computed over, so it verifies exactly when the
    token carries that content and the verifier holds that key. *)
Record signature := sign {
  sig_key : string;
  sig_iat : Z;
  sig_exp : Z;
  sig_payload : Py.json
}.

#[global] Instance signature_eq_dec : EqDecision signature.
Proof. solve_decision. Defined.

(** A token is a string; it either parses into header, payload and
    signature or it does not. *)
Inductive token :=
| Malformed (raw : string)
| Signed (iat exp : Z) (payload : Py.json) (sig : signature).

Definition dumps (secret_key : string) (expires_in now : Z)
    (obj : Py.json) : token :=
  Signed now (now + expires_in) obj
         (sign secret_key now (now + expires_in) obj).

Definition loads (secret_key : string) (now : Z) (tok : token)
    : Py.res Py.json :=
  match tok with
  | Malformed _ => Py.Raise Py.BadSignature
  | Signed iat exp payload sig =>
      if bool_decide (sig = sign secret_key iat exp payload)
      then if bool_decide (exp < now)
           then Py.Raise Py.SignatureExpired
           else Py.Ok payload
      else Py.Raise Py.BadSignature
  end.

End Serializer.

(** ** The follows table *)

Module Follow.

(** A row: the primary key (follower_id, followed_id) and the
    timestamp. *)
Definition row : Type := (Z * Z) * Z.

Definition follower_id (r : row) : Z := r.1.1.
Definition followed_id (r : row) : Z := r.1.2.
Definition timestamp (r : row) : Z := r.2.

(** [q.filter_by(follower_id=x)] *)
Definition filter_by_follower_id (x : Z) (q : gmap (Z * Z) Z) : gmap (Z * Z) Z :=
  filter (fun r : row => follower_id r = x) q.

(** [q.filter_by(followed_id=x)] *)
Definition filter_by_followed_id (x : Z) (q : gmap (Z * Z) Z) : gmap (Z * Z) Z :=
  filter (fun r : row => followed_id r = x) q.

(** [q.first()]; the source only tests the result against [None] or
    takes it from a query that can select one row at most, so the order
    of the rows does not matter. *)
Definition first (q : gmap (Z * Z) Z) : option row :=
  head (map_to_list q).

(** [db.session.add(f)] for a new row [f], flushed: the primary key
    admits one row per ordered pair. *)
Definition session_add (f : row) (tbl : gmap (Z * Z) Z) : Py.res (gmap (Z * Z) Z) :=
  match tbl !! f.1 with
  | Some _ => Py.Raise Py.IntegrityError
  | None => Py.Ok (<[f.1 := f.2]> tbl)
  end.

(** [db.session.delete(f)] *)
Definition session_delete (f : row) (tbl : gmap (Z * Z) Z) : gmap (Z * Z) Z :=
  delete f.1 tbl.

End Follow.

(** ** Configuration *)

Module Config.
Record t := mk {
  SECRET_KEY : string;
  FLASKY_ADMIN : option string
}.
End Config.

(** ** Users *)

Module User.

(** A row of [users] with its primary key assigned.  [avatar_has] is not
    a column: it is the instance attribute that [change_email] assigns.
    A method that ends in [db.session.add(self)] returns the updated
    row. *)
Record t := mk {
  id : Z;
  email : option string;
  username : option string;
  role : option Role.t;
  password_hash : option string;
  confirmed : bool;
  name : option string;
  location : option string;
  about_me : option string;
  member_since : Z;
  last_seen : Z;
  avatar_hash : option string;
  avatar_has : option string
}.

Definition set_email (v : option string) (u : t) : t :=
  mk (id u) v (username u) (role u) (password_hash u) (confirmed u)
     (name u) (location u) (about_me u) (member_since u) (last_seen u)
     (avatar_hash u) (avatar_has u).

Definition set_password_hash (v : option string) (u : t) : t :=
  mk (id u) (email u) (username u) (role u) v (confirmed u)
     (name u) (location u) (about_me u) (member_since u) (last_seen u)
     (avatar_hash u) (avatar_has u).

Definition set_confirmed (v : bool) (u : t) : t :=
  mk (id u) (email u) (username u) (role u) (password_hash u) v
     (name u) (location u) (about_me u) (member_since u) (last_seen u)
     (avatar_hash u) (avatar_has u).

Definition set_avatar_has (v : option string) (u : t) : t :=
  mk (id u) (email u) (username u) (role u) (password_hash u) (confirmed u)
     (name u) (location u) (about_me u) (member_since u) (last_seen u)
     (avatar_hash u) v.

(** Every column of [u'] but [confirmed] is as in [u]. *)
Definition same_but_confirmed (u u' : t) : Prop :=
  id u' = id u /\ email u' = email u /\ username u' = username u
  /\ role u' = role u /\ password_hash u' = password_hash u
  /\ name u' = name u /\ location u' = location u
  /\ about_me u' = about_me u /\ member_since u' = member_since u
  /\ last_seen u' = last_seen u /\ avatar_hash u' = avatar_hash u
  /\ avatar_has u' = avatar_has u.

(** The keyword arguments that the constructor is called with. *)
Record kwargs := mk_kwargs {
  kw_email : option string;
  kw_username : option string;
  kw_password : option string;
  kw_role : option Role.t;
  kw_confirmed : option bool;
  kw_name : option string;
  kw_location : option string;
  kw_about_me : option string;
  kw_member_since : option Z;
  kw_avatar_hash : option string
}.

(** The default of the [expiration] arguments. *)
Definition default_expiration : Z := 3600.

Section Methods.

(** [werkzeug.security.generate_password_hash]; the salt that the
    library draws is an argument. *)
Variable generate_password_hash : string -> string -> string.

(** [hashlib.md5(s.encode('utf-8')).hexdigest()] *)
Variable md5_hexdigest : string -> string.

Variable cfg : Config.t.

(** [User.__init__]: the base constructor stores the keyword
    arguments ([password] through its setter), then the role and the
    avatar hash are filled in.  [pk] is the primary key and [now] the
    column default that the flush gives the row. *)
Definition init (roles : list Role.t) (salt : string) (pk now : Z)
    (kw : kwargs) : t :=
  let role0 := kw_role kw in
  let role1 :=
    match role0 with
    | Some r => Some r
    | None =>
        let role_admin :=
          if bool_decide (kw_email kw = Config.FLASKY_ADMIN cfg)
          then Role.first_by_permissions 0xff roles
          else None in
        match role_admin with
        | Some r => Some r
        | None => Role.first_by_default roles
        end
    end in
  let avatar :=
    match kw_email kw, kw_avatar_hash kw with
    | Some e, None => Some (md5_hexdigest e)
    | _, h => h
    end in
  mk pk (kw_email kw) (kw_username kw) role1
     (match kw_password kw with
      | Some p => Some (generate_password_hash p salt)
      | None => None
      end)
     (match kw_confirmed kw with Some c => c | None => false end)
     (kw_name kw) (kw_location kw) (kw_about_me kw)
     (match kw_member_since kw with Some d => d | None => now end)
     now avatar None.

(** [self.followed.append(Follow(followed=self))], the last statement
    of the constructor: the row that it leaves to be flushed. *)
Definition init_follow (self : t) (now : Z) : Follow.row :=
  ((id self, id self), now).

(** The [password] setter. *)
Definition set_password (salt password : string) (self : t) : t :=
  set_password_hash (Some (generate_password_hash password salt)) self.

Definition generate_confirmation_token (now : Z) (self : t)
    (expiration : Z) : Serializer.token :=
  Serializer.dumps (Config.SECRET_KEY cfg) expiration now
    (Py.JObject {[ "confirm" := Py.PInt (id self) ]}).

(** [confirm]; the [try] covers [s.loads(token)] only, [data.get] is
    called after it. *)
Definition confirm (now : Z) (self : t) (token : Serializer.token)
    : Py.res (bool * t) :=
  Py.try_except (Serializer.loads (Config.SECRET_KEY cfg) now token)
    (Py.Ok (false, self))
    (fun data =>
       Py.bind (Py.json_get data "confirm")
         (fun claimed =>
            if Py.ne claimed (id self)
            then Py.Ok (false, self)
            else Py.Ok (true, set_confirmed true self))).

Definition generate_reset_token (now : Z) (self : t) (expiration : Z)
    : Serializer.token :=
  Serializer.dumps (Config.SECRET_KEY cfg) expiration now
    (Py.JObject {[ "rest" := Py.PInt (id self) ]}).

Definition reset_password (now : Z) (salt : string) (self : t)
    (token : Serializer.token) (new_password : string)
    : Py.res (bool * t) :=
  Py.try_except (Serializer.loads (Config.SECRET_KEY cfg) now token)
    (Py.Ok (false, self))
    (fun data =>
       Py.bind (Py.json_get data "reset")
         (fun claimed =>
            if Py.ne claimed (id self)
            then Py.Ok (false, self)
            else Py.Ok (true, set_password salt new_password self))).

Definition generate_email_change_token (now : Z) (self : t)
    (new_email : string) (expiration : Z) : Serializer.token :=
  Serializer.dumps (Config.SECRET_KEY cfg) expiration now
    (Py.JObject (<[ "change_email" := Py.PInt (id self) ]>
                   {[ "new_email" := Py.PStr new_email ]})).

(** [self.query.filter_by(email=e).first() is not None] *)
Definition email_registered (e : string) (users : list t) : bool :=
  existsb (fun u => bool_decide (email u = Some e)) users.

(** [change_email].  A payload whose [new_email] is neither [None] nor
    a string never makes the call return [True]: such a value has no
    [encode], so the digest line raises unless the lookup has raised or
    returned [False] before. *)
Definition change_email (now : Z) (users : list t) (self : t)
    (token : Serializer.token) : Py.res (bool * t) :=
  Py.try_except (Serializer.loads (Config.SECRET_KEY cfg) now token)
    (Py.Ok (false, self))
    (fun data =>
       Py.bind (Py.json_get data "change_email")
         (fun claimed =>
            if Py.ne claimed (id self)
            then Py.Ok (false, self)
            else
              Py.bind (Py.json_get data "new_email")
                (fun new_email =>
                   match new_email with
                   | Py.PNone => Py.Ok (false, self)
                   | Py.PStr new_email =>
                       if email_registered new_email users
                       then Py.Ok (false, self)
                       else
                         let self1 := set_email (Some new_email) self in
                         let self2 :=
                           set_avatar_has (Some (md5_hexdigest new_email))
                                          self1 in
                         Py.Ok (true, self2)
                   | _ => Py.Raise Py.AttributeError
                   end))).

End Methods.

Definition can (self : t) (permissions : Z) : bool :=
  match role self with
  | None => false
  | Some r =>
      bool_decide (Z.land (Role.permissions r) permissions = permissions)
  end.

Definition is_administrator (self : t) : bool :=
  can self Permission.ADMINISTER.

(** The relationship [self.followed]: the rows whose follower is
    [self]. *)
Definition followed (self : t) (follows : gmap (Z * Z) Z) : gmap (Z * Z) Z :=
  Follow.filter_by_follower_id (id self) follows.

(** The relationship [self.followers]: the rows whose followed user is
    [self]. *)
Definition followers (self : t) (follows : gmap (Z * Z) Z) : gmap (Z * Z) Z :=
  Follow.filter_by_followed_id (id self) follows.

Definition is_following (self user : t) (follows : gmap (Z * Z) Z) : bool :=
  match Follow.first
          (Follow.filter_by_follower_id (id user) (followed self follows)) with
  | Some _ => true
  | None => false
  end.

Definition is_followed_by (self user : t) (follows : gmap (Z * Z) Z) : bool :=
  match Follow.first
          (Follow.filter_by_follower_id (id user) (followers self follows)) with
  | Some _ => true
  | None => false
  end.

(** [follow], with the flush of the row it adds; [now] is the default of
    the [timestamp] column. *)
Definition follow (now : Z) (self user : t) (follows : gmap (Z * Z) Z)
    : Py.res (gmap (Z * Z) Z) :=
  if negb (is_following self user follows)
  then Follow.session_add ((id self, id user), now) follows
  else Py.Ok follows.

Definition unfollow (self user : t) (follows : gmap (Z * Z) Z) : gmap (Z * Z) Z :=
  match Follow.first
          (Follow.filter_by_followed_id (id user) (followed self follows)) with
  | Some f => Follow.session_delete f follows
  | None => follows
  end.

End User.

Module AnonymousUser.
Inductive t := mk.
Definition can (self : t) (permissions : Z) : bool := false.
Definition is_administrator (self : t) : bool := false.
End AnonymousUser.

(** What [current_user] offers, whether it is a [User] or an
    [AnonymousUser]. *)
Class Principal (A : Type) := {
  can : A -> Z -> bool;
  is_administrator : A -> bool
}.

#[global] Instance User_Principal : Principal User.t :=
  {| can := User.can; is_administrator := User.is_administrator |}.

#[global] Instance AnonymousUser_Principal : Principal AnonymousUser.t :=
  {| can := AnonymousUser.can;
     is_administrator := AnonymousUser.is_administrator |}.

(** [permission_required] of [app/decorators.py]: the view runs when the
    principal holds the permission, the request is refused otherwise. *)
Definition permission_required {A} `{Principal A} {B}
    (permission : Z) (f : B) (current_user : A) : option B :=
  if negb (can current_user permission) then None else Some f.

(** ** The database *)

Module DB.

Record t := mk {
  roles : list Role.t;
  users : list User.t;
  follows : gmap (Z * Z) Z
}.

(** The key that the autoincrementing primary key gives a new user. *)
Definition next_user_id (us : list User.t) : Z :=
  1 + foldr Z.max 0 (map User.id us).

(** A unique column already holds the value ([NULL]s never clash). *)
Definition taken (col : User.t -> option string) (v : option string)
    (us : list User.t) : bool :=
  match v with
  | None => false
  | Some s => existsb (fun u => bool_decide (col u = Some s)) us
  end.

Section Create.

Variable generate_password_hash : string -> string -> string.
Variable md5_hexdigest : string -> string.
Variable cfg : Config.t.

(** [u = User(...); db.session.add(u); db.session.commit()], as the
    registration view and the tests do: the constructor runs, then the
    flush inserts the user and the row that the constructor appended
    to [u.followed]. *)
Definition create_user (salt : string) (now : Z) (kw : User.kwargs)
    (db : t) : Py.res (t * User.t) :=
  let self :=
    User.init generate_password_hash md5_hexdigest cfg
              (roles db) salt (next_user_id (users db)) now kw in
  if taken User.email (User.email self) (users db)
     || taken User.username (User.username self) (users db)
  then Py.Raise Py.IntegrityError
  else
    Py.bind (Follow.session_add (User.init_follow self now) (follows db))
      (fun follows' => Py.Ok (mk (roles db) (users db ++ [self]) follows', self)).

End Create.

(** Both ends of every row of [follows] are keys of [users] (the
    foreign keys of the table). *)
Definition foreign_keys_ok (db : t) : Prop :=
  map_Forall
    (fun (k : Z * Z) (_ : Z) =>
       k.1 ∈ map User.id (users db) ∧ k.2 ∈ map User.id (users db))
    (follows db).

End DB.

(** ** Posts and comments *)

Module Post.

Record t := mk {
  id : Z;
  body : option string;
  body_html : option string;
  timestamp : Z;
  author_id : option Z
}.

Definition allowed_tags : list string :=
  ["a"; "abbr"; "acronym"; "b"; "blockquote";
   "code"; "em"; "i"; "li"; "ol"; "pre"; "strong"; "ul";
   "h1"; "h2"; "h3"; "p"].

Section Render.

(** [markdown(text, output_format='html')], [bleach.clean(text,
    tags=..., strip=...)] and [bleach.linkify(text)]. *)
Variable markdown : string -> string.
Variable bleach_clean : string -> list string -> bool -> string.
Variable bleach_linkify : string -> string.

Definition on_changed_body (target : t) (value : string) : t :=
  mk (id target) (body target)
     (Some (bleach_linkify (bleach_clean (markdown value) allowed_tags true)))
     (timestamp target) (author_id target).

(** [target.body = value] with the listener that
    [db.event.listen(Post.body, 'set', Post.on_changed_body)]
    registers. *)
Definition set_body (target : t) (value : string) : t :=
  let target1 := on_changed_body target value in
  mk (id target1) (Some value) (body_html target1)
     (timestamp target1) (author_id target1).

End Render.

End Post.

Module Comment.

Record t := mk {
  id : Z;
  body : option string;
  body_html : option string;
  timestamp : Z;
  disabled : option bool;
  author_id : option Z;
  post_id : option Z
}.

Definition allowed_tags : list string :=
  ["a"; "abbr"; "acronym"; "b"; "code"; "em"; "i"; "strong"].

Section Render.

Variable markdown : string -> string.
Variable bleach_clean : string -> list string -> bool -> string.
Variable bleach_linkify : string -> string.

Definition on_changed_body (target : t) (value : string) : t :=
  mk (id target) (body target)
     (Some (bleach_linkify (bleach_clean (markdown value) allowed_tags true)))
     (timestamp target) (disabled target) (author_id target)
     (post_id target).

(** [target.body = value] with the listener that
    [db.event.listen(Comment.body, 'set', Comment.on_changed_body)]
    registers. *)
Definition set_body (target : t) (value : string) : t :=
  let target1 := on_changed_body target value in
  mk (id target1) (Some value) (body_html target1)
     (timestamp target1) (disabled target1) (author_id target1)
     (post_id target1).

End Render.

End Comment.

(** ** Sample data *)

Module Sample.

Definition cfg : Config.t := Config.mk "hard to guess string" None.

Definition user (pk : Z) (r : option Role.t) : User.t :=
  User.mk pk None None r None false None None None 0 0 None None.

Definition role_user : Role.t := Role.mk 1 "User" true 0x07.
Definition role_admin : Role.t := Role.mk 3 "Administrator" false 0xff.
Definition role_bare : Role.t := Role.mk 4 "Operator" false 0x80.

Definition john : User.t := user 1 (Some role_user).
Definition susan : User.t := user 2 (Some role_user).

(** Stand-ins for the hash functions. *)
Definition hash (p salt : string) : string := salt ++ "$" ++ p.
Definition digest (s : string) : string := "md5:" ++ s.

(** [john] and [susan] follow themselves, and [john] follows [susan]. *)
Definition follows : gmap (Z * Z) Z :=
  <[(1, 2) := 30]> (<[(2, 2) := 20]> {[ (1, 1) := 10 ]}).

Definition db : DB.t :=
  DB.mk (Role.insert_roles []) [john; susan] follows.

Definition kw_david : User.kwargs :=
  User.mk_kwargs (Some "david@example.net") (Some "david") (Some "cat")
                 None None None None None None None.

(** A user with an address and the digest of that address. *)
Definition mary : User.t :=
  User.mk 3 (Some "mary@example.com") (Some "mary") (Some role_user) None
          true None None None 0 0 (Some (digest "mary@example.com")) None.

End Sample.

(** ** The follow graph as a whole *)

Module Graph.

(** [User.add_self_follows]: every user that does not follow itself
    according to [is_following] follows itself, and the session is
    committed.  [clock k] is the time at which the row of user [k] is
    written. *)
Definition add_self_follows (clock : Z -> Z) (users : list User.t)
    (follows : gmap (Z * Z) Z) : Py.res (gmap (Z * Z) Z) :=
  foldl
    (fun acc user =>
       Py.bind acc
         (fun follows =>
            if negb (User.is_following user user follows)
            then User.follow (clock (User.id user)) user user follows
            else Py.Ok follows))
    (Py.Ok follows) users.

(** The pairs of a post and a row that satisfy the join condition and
    the filter of [followed_posts], as posts. *)
Definition joined_posts (self : User.t) (posts : list Post.t)
    (follows : gmap (Z * Z) Z) : list Post.t :=
  flat_map
    (fun p =>
       flat_map
         (fun r : Follow.row =>
            if bool_decide (Some (Follow.followed_id r) = Post.author_id p
                            /\ Follow.follower_id r = User.id self)
            then [p] else [])
         (map_to_list follows))
    posts.

(** The property [followed_posts]:
    [Post.query.join(Follow, Follow.followed_id == Post.author_id)
         .filter(Follow.follower_id == self.id)].
    The query has no [order_by]: [query_order] is the order in which the
    database returns the rows that the query selects. *)
Definition followed_posts (query_order : list Post.t -> list Post.t)
    (self : User.t) (posts : list Post.t) (follows : gmap (Z * Z) Z)
    : list Post.t :=
  query_order (joined_posts self posts follows).

End Graph.

(** ** Avatars *)

Module Avatar.

Definition default_size : Z := 100.
Definition default_default : string := "identicon".
Definition default_rating : string := "g".

Section Gravatar.

Variable md5_hexdigest : string -> string.

(** [self.avatar_hash or hashlib.md5(self.email.encode('utf-8')).hexdigest()]:
    a missing or empty stored hash is falsy, and a missing address has no
    [encode]. *)
Definition hash_or_digest (self : User.t) : Py.res string :=
  let digest :=
    match User.email self with
    | Some e => Py.Ok (md5_hexdigest e)
    | None => Py.Raise Py.AttributeError
    end in
  match User.avatar_hash self with
  | Some h => if bool_decide (h = "") then digest else Py.Ok h
  | None => digest
  end.

(** [User.gravatar]; [is_secure] is [request.is_secure]. *)
Definition gravatar (is_secure : bool) (self : User.t) (size : Z)
    (default rating : string) : Py.res string :=
  let url :=
    if is_secure
    then "https://secure.gravatar.com/avatar"
    else "http://www.gravatar.com/avatar" in
  Py.bind (hash_or_digest self)
    (fun hash =>
       Py.Ok (url ++ "/" ++ hash ++ "?s=" ++ pretty size
                  ++ "&d=" ++ default ++ "&r=" ++ rating)).

End Gravatar.

End Avatar.

(** ** The programming interface *)

Module Api.

(** The exceptions that the calls of this layer can let escape. *)
Inductive exn :=
| KeyError (key : string)
| TypeError
| ValidationError (message : string)
| AttributeError.

Inductive res (A : Type) :=
| Return (a : A)
| Raise (e : exn).
Arguments Return {A} a.
Arguments Raise {A} e.

(** [User.generate_auth_token] *)
Definition generate_auth_token (cfg : Config.t) (now : Z) (self : User.t)
    (expiration : Z) : Serializer.token :=
  Serializer.dumps (Config.SECRET_KEY cfg) expiration now
    (Py.JObject {[ "id" := Py.PInt (User.id self) ]}).

(** [data[k]] on a decoded document: a dictionary without the key
    raises [KeyError], and nothing else can be subscripted by a
    string. *)
Definition subscript (data : Py.json) (k : string) : res Py.value :=
  match data with
  | Py.JObject fields =>
      match fields !! k with
      | None => Raise (KeyError k)
      | Some v => Return v
      end
  | Py.JOther _ => Raise TypeError
  end.

Section Auth.

(** What [User.query.get] answers on a key that is not an integer: the
    database driver decides (it may read a string or a float as a
    number, or refuse the value). *)
Variable query_get_other : Py.value -> list User.t -> res (option User.t).

(** [User.query.get(key)]: the row with that primary key. *)
Definition query_get (key : Py.value) (users : list User.t)
    : res (option User.t) :=
  match key with
  | Py.PInt n =>
      Return (List.find (fun u => bool_decide (User.id u = n)) users)
  | _ => query_get_other key users
  end.

(** [User.verify_auth_token]: the subscript [data['id']] is outside the
    [try]. *)
Definition verify_auth_token (cfg : Config.t) (now : Z) (users : list User.t)
    (token : Serializer.token) : res (option User.t) :=
  match Serializer.loads (Config.SECRET_KEY cfg) now token with
  | Py.Raise _ => Return None
  | Py.Ok data =>
      match subscript data "id" with
      | Raise e => Raise e
      | Return key => query_get key users
      end
  end.

End Auth.

Section FromJson.

Variable markdown : string -> string.
Variable bleach_clean : string -> list string -> bool -> string.
Variable bleach_linkify : string -> string.

(** [Post(body=value)]: the constructor assigns [body], which runs the
    listener.  [pk] and [now] are the key and the timestamp that the
    flush gives the row. *)
Definition Post_init (pk now : Z) (value : string) : Post.t :=
  Post.set_body markdown bleach_clean bleach_linkify
    (Post.mk pk None None now None) value.

(** [Comment(body=value)] *)
Definition Comment_init (pk now : Z) (value : string) : Comment.t :=
  Comment.set_body markdown bleach_clean bleach_linkify
    (Comment.mk pk None None now None None None) value.

(** [Post.from_json].  A body that is neither [None] nor a string
    passes the test and reaches [markdown], which calls [strip] on
    it. *)
Definition Post_from_json (pk now : Z) (json_post : gmap string Py.value)
    : res Post.t :=
  let body := Py.get json_post "body" in
  match body with
  | Py.PNone => Raise (ValidationError "post does not have a body")
  | Py.PStr s =>
      if bool_decide (s = "")
      then Raise (ValidationError "post does not have a body")
      else Return (Post_init pk now s)
  | _ => Raise AttributeError
  end.

(** [Comment.from_json] *)
Definition Comment_from_json (pk now : Z) (json_comment : gmap string Py.value)
    : res Comment.t :=
  let body := Py.get json_comment "body" in
  match body with
  | Py.PNone => Raise (ValidationError "comment does not have a body")
  | Py.PStr s =>
      if bool_decide (s = "")
      then Raise (ValidationError "comment does not have a body")
      else Return (Comment_init pk now s)
  | _ => Raise AttributeError
  end.

End FromJson.

End Api.

(** ** Views *)

Module Views.

(** What a view answers: [abort(code)], or a redirect after the messages
    it flashed. *)
Inductive response :=
| Abort (code : Z)
| Redirect (flashed : list string).

(** [User.query.filter_by(username=username).first()] *)
Definition first_by_username (username : string) (users : list User.t)
    : option User.t :=
  List.find (fun u => bool_decide (User.username u = Some username)) users.

(** The view [follow] of [app/main/views.py], for a logged-in
    [current_user]; the session is committed when the request ends. *)
Definition follow (now : Z) (users : list User.t) (current_user : User.t)
    (username : string) (follows : gmap (Z * Z) Z)
    : Py.res (response * gmap (Z * Z) Z) :=
  let view :=
    match first_by_username username users with
    | None => Py.Ok (Redirect ["Invalid user."], follows)
    | Some user =>
        if User.is_following current_user user follows
        then Py.Ok (Redirect ["You are already following this user."], follows)
        else
          Py.bind (User.follow now current_user user follows)
            (fun follows' =>
               Py.Ok (Redirect ["You are now following " ++ username ++ "."],
                      follows'))
    end in
  match permission_required Permission.FOLLOW view current_user with
  | None => Py.Ok (Abort 403, follows)
  | Some run => run
  end.

(** The view [unfollow]. *)
Definition unfollow (users : list User.t) (current_user : User.t)
    (username : string) (follows : gmap (Z * Z) Z)
    : response * gmap (Z * Z) Z :=
  let view :=
    match first_by_username username users with
    | None => (Redirect ["Invalid user."], follows)
    | Some user =>
        if negb (User.is_following current_user user follows)
        then (Redirect ["You are not following this user."], follows)
        else (Redirect ["Your are not following " ++ username ++ " anymore."],
              User.unfollow current_user user follows)
    end in
  match permission_required Permission.FOLLOW view current_user with
  | None => (Abort 403, follows)
  | Some run => run
  end.

(** [Comment.query.get_or_404(id)] *)
Definition get_or_404 (id : Z) (comments : list Comment.t) : option Comment.t :=
  List.find (fun c => bool_decide (Comment.id c = id)) comments.

(** Stores the changed row [c'] in place of the row with its key. *)
Definition session_add (c' : Comment.t) (comments : list Comment.t)
    : list Comment.t :=
  map (fun c => if bool_decide (Comment.id c = Comment.id c') then c' else c)
      comments.

Definition set_disabled (v : option bool) (c : Comment.t) : Comment.t :=
  Comment.mk (Comment.id c) (Comment.body c) (Comment.body_html c)
             (Comment.timestamp c) v (Comment.author_id c) (Comment.post_id c).

(** The view [moderate_disable]: [comment.disabled = True]. *)
Definition moderate_disable (current_user : User.t) (id : Z)
    (comments : list Comment.t) : response * list Comment.t :=
  let view :=
    match get_or_404 id comments with
    | None => (Abort 404, comments)
    | Some comment =>
        (Redirect [], session_add (set_disabled (Some true) comment) comments)
    end in
  match permission_required Permission.MODERATE_COMMENTS view current_user with
  | None => (Abort 403, comments)
  | Some run => run
  end.

(** The view [moderate_enable]: [comment.disable = False] assigns an
    attribute that is no column, so the row that is added back is the row
    that was read. *)
Definition moderate_enable (current_user : User.t) (id : Z)
    (comments : list Comment.t) : response * list Comment.t :=
  let view :=
    match get_or_404 id comments with
    | None => (Abort 404, comments)
    | Some comment => (Redirect [], session_add comment comments)
    end in
  match permission_required Permission.MODERATE_COMMENTS view current_user with
  | None => (Abort 403, comments)
  | Some run => run
  end.

End Views.

(** ** More sample data *)

Module Fixture.

Definition role_moderator : Role.t := Role.mk 2 "Moderator" false 0x0f.

Definition named (pk : Z) (nm : string) (r : option Role.t) : User.t :=
  User.mk pk (Some (nm ++ "@example.com")) (Some nm) r None true
          None None None 0 0 None None.

Definition ann : User.t := named 1 "ann" (Some Sample.role_user).
Definition bob : User.t := named 2 "bob" (Some Sample.role_user).
Definition moe : User.t := named 3 "moe" (Some role_moderator).

Definition users : list User.t := [ann; bob; moe].

(** [ann] follows [bob]; nobody follows itself. *)
Definition follows : gmap (Z * Z) Z := {[ (1, 2) := 30 ]}.

Definition comment (pk : Z) (d : option bool) : Comment.t :=
  Comment.mk pk (Some "hello") (Some "<p>hello</p>") 5 d (Some 1) (Some 1).

Definition comments : list Comment.t := [comment 1 None; comment 2 None].

Definition post (pk author : Z) : Post.t :=
  Post.mk pk (Some "text") (Some "<p>text</p>") 7 (Some author).

Definition posts : list Post.t := [post 1 1; post 2 2; post 3 3].

(** A database that finds no row for a key that is not an integer. *)
Definition no_coercion (key : Py.value) (users : list User.t)
    : Api.res (option User.t) :=
  Api.Return None.

End Fixture.

(** * Properties *)

(** ** Queries over the follows table *)

Section FollowQueries.

Implicit Types (q follows : gmap (Z * Z) Z) (f : Follow.row).

Lemma first_None q : Follow.first q = None <-> q = ∅.
Proof.
  unfold Follow.first. rewrite <- map_to_list_empty_iff.
  destruct (map_to_list q) as [|x l]; simpl; split; intros H;
    first [done | discriminate H].
Qed.

Lemma first_Some_lookup q f : Follow.first q = Some f -> q !! f.1 = Some f.2.
Proof.
  unfold Follow.first. intros Hhd.
  apply head_Some_elem_of in Hhd. destruct f as [k ts].
  by apply elem_of_map_to_list in Hhd.
Qed.

Lemma first_filter_Some (P : Follow.row -> Prop) `{!∀ r, Decision (P r)} q :
  (exists f, Follow.first (filter P q) = Some f)
  <-> (exists k ts, q !! k = Some ts /\ P (k, ts)).
Proof.
  split.
  - intros [f Hf]. apply first_Some_lookup in Hf.
    apply map_lookup_filter_Some in Hf as [Hq HP].
    exists f.1, f.2. by destruct f.
  - intros (k & ts & Hq & HP).
    destruct (Follow.first (filter P q)) as [f|] eqn:E; [by exists f|].
    apply first_None in E.
    assert (filter P q !! k = Some ts) as Hin
      by (apply map_lookup_filter_Some; done).
    rewrite E in Hin. by rewrite lookup_empty in Hin.
Qed.

(** The rows that [self.followed.filter_by(followed_id=...)] selects
    carry one key. *)
Lemma followed_filter_followed_lookup a b follows k ts :
  Follow.filter_by_followed_id b (Follow.filter_by_follower_id a follows) !! k
    = Some ts
  <-> k = (a, b) /\ follows !! (a, b) = Some ts.
Proof.
  unfold Follow.filter_by_followed_id, Follow.filter_by_follower_id.
  rewrite !map_lookup_filter_Some.
  unfold Follow.followed_id, Follow.follower_id. destruct k as [x y]; simpl.
  split.
  - intros [[Hl ->] ->]. done.
  - intros [[= -> ->] Hl]. done.
Qed.

End FollowQueries.

(** Row selection by two successive [filter_by] calls. *)
Lemma first_filter2_true (P Q : Follow.row -> Prop)
    `{!∀ r, Decision (P r)} `{!∀ r, Decision (Q r)} (follows : gmap (Z * Z) Z) :
  (exists f, Follow.first (filter P (filter Q follows)) = Some f)
  <-> (exists k ts, follows !! k = Some ts /\ P (k, ts) /\ Q (k, ts)).
Proof.
  rewrite first_filter_Some. split.
  - intros (k & ts & Hq & HP). apply map_lookup_filter_Some in Hq as [Hq HQ].
    by exists k, ts.
  - intros (k & ts & Hq & HP & HQ). exists k, ts. split; [|done].
    by apply map_lookup_filter_Some.
Qed.

(** [is_followed_by] looks for the row (user, self). *)
Lemma is_followed_by_edge (self user : User.t) (follows : gmap (Z * Z) Z) :
  User.is_followed_by self user follows = true
  <-> is_Some (follows !! (User.id user, User.id self)).
Proof.
  unfold User.is_followed_by, User.followers,
    Follow.filter_by_follower_id, Follow.filter_by_followed_id.
  match goal with
  | |- context [Follow.first (filter ?P (filter ?Q follows))] =>
      pose proof (first_filter2_true P Q follows) as Hq;
      destruct (Follow.first (filter P (filter Q follows))) as [f|]
  end.
  - split; [intros _|done].
    destruct (proj1 Hq) as ([x y] & ts & Hl & HP & HQ); [by exists f|].
    unfold Follow.follower_id, Follow.followed_id in *. simpl in *.
    subst. by exists ts.
  - split; [done|]. intros [ts Hts].
    destruct (proj2 Hq) as [f Hf]; [|done].
    exists (User.id user, User.id self), ts. done.
Qed.

(** [is_following] filters the rows of [self.followed] on [follower_id]
    again: it finds a row exactly when both arguments are the same user
    and that user follows somebody. *)
Lemma is_following_spec (self user : User.t) (follows : gmap (Z * Z) Z) :
  User.is_following self user follows = true
  <-> User.id self = User.id user
      /\ exists b ts, follows !! (User.id self, b) = Some ts.
Proof.
  unfold User.is_following, User.followed, Follow.filter_by_follower_id.
  match goal with
  | |- context [Follow.first (filter ?P (filter ?Q follows))] =>
      pose proof (first_filter2_true P Q follows) as Hq;
      destruct (Follow.first (filter P (filter Q follows))) as [f|]
  end.
  - split; [intros _|done].
    destruct (proj1 Hq) as ([x y] & ts & Hl & HP & HQ); [by exists f|].
    unfold Follow.follower_id in *. simpl in *. subst x.
    split; [done|]. exists y, ts. by rewrite <- HQ.
  - split; [done|]. intros [Heq (b & ts & Hts)].
    destruct (proj2 Hq) as [f Hf]; [|done].
    exists (User.id self, b), ts. done.
Qed.

Lemma is_following_distinct (self user : User.t) (follows : gmap (Z * Z) Z) :
  User.id self <> User.id user -> User.is_following self user follows = false.
Proof.
  intros Hne. destruct (User.is_following self user follows) eqn:E; [|done].
  apply is_following_spec in E as [Heq _]. done.
Qed.

(** [unfollow] deletes the row (self, user). *)
Lemma unfollow_delete (self user : User.t) (follows : gmap (Z * Z) Z) :
  User.unfollow self user follows
  = delete (User.id self, User.id user) follows.
Proof.
  unfold User.unfollow, User.followed.
  destruct (Follow.first _) as [f|] eqn:E.
  - apply first_Some_lookup in E.
    apply followed_filter_followed_lookup in E as [Hk _].
    unfold Follow.session_delete. by rewrite Hk.
  - apply first_None in E. symmetry. apply delete_id.
    destruct (follows !! (User.id self, User.id user)) as [ts|] eqn:Hl; [|done].
    assert (Follow.filter_by_followed_id (User.id user)
              (Follow.filter_by_follower_id (User.id self) follows)
              !! (User.id self, User.id user) = Some ts) as Hin
      by (by apply followed_filter_followed_lookup).
    rewrite E in Hin. by rewrite lookup_empty in Hin.
Qed.

(** ** Permission evaluation *)

(** C1. For a user with a role, [can] holds exactly when the role's mask
    contains every bit of the requested mask (a bitwise superset test);
    the anonymous principal holds no mask and is never an administrator. *)
Theorem can_superset_test :
  (forall (u : User.t) (r : Role.t) (m : Z),
      User.role u = Some r ->
      User.can u m = true <-> Z.land (Role.permissions r) m = m)
  /\ (forall (a : AnonymousUser.t) (m : Z), AnonymousUser.can a m = false)
  /\ (forall a : AnonymousUser.t, AnonymousUser.is_administrator a = false).
Proof.
  split; [|split]; [|reflexivity..].
  intros u r m Hrole. unfold User.can. rewrite Hrole.
  apply bool_decide_eq_true.
Qed.

(** The test is containment, not equality: the mask 0x07 grants 0x01. *)
Lemma can_superset_test_witness :
  User.role Sample.john = Some Sample.role_user
  /\ (User.can Sample.john Permission.FOLLOW = true
      <-> Z.land (Role.permissions Sample.role_user) Permission.FOLLOW
          = Permission.FOLLOW)
  /\ Role.permissions Sample.role_user <> Permission.FOLLOW.
Proof.
  split; [reflexivity|]. split; [|discriminate].
  apply (proj1 can_superset_test Sample.john Sample.role_user
           Permission.FOLLOW).
  reflexivity.
Defined.

(** A view behind [permission_required] is refused to the anonymous
    principal, whatever the permission. *)
Lemma permission_required_anonymous {B} (permission : Z) (f : B) :
  permission_required permission f AnonymousUser.mk = None.
Proof. reflexivity. Qed.

(** The table that [insert_roles] leaves behind. *)
Lemma provisioned_tables (tbl : list Role.t) :
  Role.provisioned tbl -> tbl = [] \/ tbl = Role.insert_roles [].
Proof.
  induction 1 as [|tbl _ [-> | ->]].
  - by left.
  - by right.
  - right. reflexivity.
Qed.

Lemma provisioned_masks (tbl : list Role.t) (r : Role.t) :
  Role.provisioned tbl -> r ∈ tbl ->
  Role.permissions r = 0x07 \/ Role.permissions r = 0x0f
  \/ Role.permissions r = 0xff.
Proof.
  intros Hp Hin. apply provisioned_tables in Hp as [-> | ->].
  - by apply elem_of_nil in Hin.
  - vm_compute in Hin.
    repeat (apply elem_of_cons in Hin as [-> | Hin]); try (simpl; tauto).
    by apply elem_of_nil in Hin.
Qed.

(** The implication rests on the provisioned masks, not on the bit
    test: a role that only had the ADMINISTER bit would make its user an
    administrator that cannot FOLLOW.  No provisioned table holds such a
    role. *)
Lemma administer_bit_alone :
  User.can (Sample.user 9 (Some Sample.role_bare)) Permission.ADMINISTER = true
  /\ Permission.FOLLOW ∈ Permission.defined
  /\ User.can (Sample.user 9 (Some Sample.role_bare)) Permission.FOLLOW = false.
Proof.
  split; [reflexivity|]. split; [|reflexivity].
  apply elem_of_cons. by left.
Qed.

Lemma bare_role_not_provisioned (tbl : list Role.t) :
  Role.provisioned tbl -> Sample.role_bare ∉ tbl.
Proof.
  intros Hp Hin.
  destruct (provisioned_masks tbl Sample.role_bare Hp Hin) as [H | [H | H]];
    discriminate H.
Qed.

(** C6. Roles are rows of the table that only [insert_roles] writes.
    For every user with such a role, [can] at ADMINISTER implies [can]
    at every defined mask: the only provisioned role with the
    ADMINISTER bit is Administrator, whose mask is 0xff. *)
Theorem administrator_role_holds_all (tbl : list Role.t) (u : User.t)
    (r : Role.t) (m : Z) :
  Role.provisioned tbl -> r ∈ tbl -> User.role u = Some r ->
  m ∈ Permission.defined ->
  User.can u Permission.ADMINISTER = true -> User.can u m = true.
Proof.
  intros Hp Hin Hrole Hm. unfold User.can. rewrite Hrole.
  rewrite !bool_decide_eq_true.
  unfold Permission.defined in Hm.
  destruct (provisioned_masks tbl r Hp Hin) as [-> | [-> | ->]];
    repeat (apply elem_of_cons in Hm as [-> | Hm]);
    try (by apply elem_of_nil in Hm);
    vm_compute; congruence.
Qed.

Lemma administrator_role_holds_all_witness :
  User.can (Sample.user 1 (Some Sample.role_admin)) Permission.MODERATE_COMMENTS
  = true.
Proof.
  apply (administrator_role_holds_all (Role.insert_roles [])
           (Sample.user 1 (Some Sample.role_admin)) Sample.role_admin).
  - apply Role.provisioned_insert, Role.provisioned_created.
  - vm_compute. do 2 apply list_elem_of_further. apply list_elem_of_here.
  - reflexivity.
  - vm_compute. do 3 apply list_elem_of_further. apply list_elem_of_here.
  - reflexivity.
Defined.

(** ** The follow graph *)

(** C2, on the edge set where john follows susan: [is_followed_by] finds
    the edge from either side, [is_following] does not find it. *)
Lemma is_following_misses_edge :
  Sample.follows !! (User.id Sample.john, User.id Sample.susan) = Some 30
  /\ User.is_followed_by Sample.susan Sample.john Sample.follows = true
  /\ User.is_following Sample.john Sample.susan Sample.follows = false.
Proof. vm_compute. done. Qed.

(** C3, on the same edge set: following susan again attempts a second
    row with the same primary key, and following oneself adds no row once
    any row leaves the user. *)
Lemma follow_existing_edge_raises :
  Sample.follows !! (User.id Sample.john, User.id Sample.susan) = Some 30
  /\ User.follow 40 Sample.john Sample.susan Sample.follows
     = Py.Raise Py.IntegrityError
  /\ User.follow 40 Sample.susan Sample.susan
       (delete (2, 2) (<[(2, 1) := 35]> Sample.follows))
     = Py.Ok (delete (2, 2) (<[(2, 1) := 35]> Sample.follows)).
Proof. vm_compute. done. Qed.

(** C4, on the same edge set: [unfollow(john, john)] removes john's
    self-edge, and [follow(john, susan)] then [unfollow(john, susan)] does
    not give the edge set back when john already follows susan. *)
Lemma unfollow_removes_self_edge :
  Sample.follows !! (User.id Sample.john, User.id Sample.john) = Some 10
  /\ User.unfollow Sample.john Sample.john Sample.follows
       !! (User.id Sample.john, User.id Sample.john) = None
  /\ User.id Sample.john <> User.id Sample.susan
  /\ Py.bind (User.follow 40 Sample.john Sample.susan Sample.follows)
       (fun follows' =>
          Py.Ok (User.unfollow Sample.john Sample.susan follows'))
     <> Py.Ok Sample.follows.
Proof. vm_compute. done. Qed.

(** Towards another user [follow] always adds the row. *)
Lemma follow_distinct (now : Z) (a b : User.t) (follows : gmap (Z * Z) Z) :
  User.id a <> User.id b ->
  User.follow now a b follows
  = Follow.session_add ((User.id a, User.id b), now) follows.
Proof.
  intros Hne. unfold User.follow.
  by rewrite (is_following_distinct a b follows Hne).
Qed.

(** C4, amended. For distinct users a and b whose edge is not in the
    edge set, [follow(a, b)] inserts it with the current timestamp and
    [unfollow(a, b)] then restores the prior edge set; [unfollow(u, u)]
    deletes the self-edge of u. *)
Theorem follow_unfollow_restores (now : Z) (a b : User.t)
    (follows : gmap (Z * Z) Z) :
  (User.id a <> User.id b ->
   follows !! (User.id a, User.id b) = None ->
   exists follows',
     User.follow now a b follows = Py.Ok follows'
     /\ follows' !! (User.id a, User.id b) = Some now
     /\ User.unfollow a b follows' = follows)
  /\ User.unfollow a a follows = delete (User.id a, User.id a) follows.
Proof.
  split; [|apply unfollow_delete].
  intros Hne Hfresh. exists (<[(User.id a, User.id b) := now]> follows).
  rewrite (follow_distinct now a b follows Hne).
  unfold Follow.session_add. simpl. rewrite Hfresh.
  split; [done|]. split; [apply lookup_insert_eq|].
  rewrite unfollow_delete. by apply delete_insert_id.
Qed.

Lemma follow_unfollow_restores_witness :
  exists follows',
    User.follow 40 Sample.john Sample.susan
      (<[(2, 2) := 20]> {[ (1, 1) := 10 ]}) = Py.Ok follows'
    /\ follows' !! (1, 2) = Some 40
    /\ User.unfollow Sample.john Sample.susan follows'
       = <[(2, 2) := 20]> {[ (1, 1) := 10 ]}.
Proof.
  apply (proj1 (follow_unfollow_restores 40 Sample.john Sample.susan
                  (<[(2, 2) := 20]> {[ (1, 1) := 10 ]}))).
  - vm_compute. discriminate.
  - vm_compute. reflexivity.
Defined.

Lemma next_user_id_above (us : list User.t) (x : Z) :
  x ∈ map User.id us -> x < DB.next_user_id us.
Proof.
  unfold DB.next_user_id. induction us as [|u us IH]; simpl.
  - intros H. by apply elem_of_nil in H.
  - intros [-> | H]%elem_of_cons; [lia|]. specialize (IH H). lia.
Qed.

Lemma next_user_id_unused (db : DB.t) :
  DB.foreign_keys_ok db ->
  DB.follows db !! (DB.next_user_id (DB.users db),
                    DB.next_user_id (DB.users db)) = None.
Proof.
  intros Hfk.
  destruct (DB.follows db !! _) as [ts|] eqn:E; [|done].
  apply Hfk in E as [Hin _]. apply next_user_id_above in Hin. simpl in Hin. lia.
Qed.

(** C5. Creating a user succeeds when the unique columns are free, and
    every created user has its self-edge in the edge set and follows
    itself. *)
Theorem self_edge_after_construction
    (generate_password_hash : string -> string -> string)
    (md5_hexdigest : string -> string) (cfg : Config.t)
    (salt : string) (now : Z) (kw : User.kwargs) (db : DB.t) :
  (DB.foreign_keys_ok db ->
   DB.taken User.email (User.kw_email kw) (DB.users db) = false ->
   DB.taken User.username (User.kw_username kw) (DB.users db) = false ->
   Py.returns
     (DB.create_user generate_password_hash md5_hexdigest cfg salt now kw db))
  /\ (forall (db' : DB.t) (u : User.t),
        DB.create_user generate_password_hash md5_hexdigest cfg salt now kw db
        = Py.Ok (db', u) ->
        u ∈ DB.users db'
        /\ DB.follows db' !! (User.id u, User.id u) = Some now
        /\ User.is_following u u (DB.follows db') = true).
Proof.
  unfold DB.create_user, User.init_follow, Follow.session_add. simpl. split.
  - intros Hfk -> ->. simpl. rewrite (next_user_id_unused db Hfk). simpl.
    eexists. reflexivity.
  - intros db' u.
    destruct (_ || _); [discriminate|].
    destruct (DB.follows db !! _) as [ts|]; simpl; [discriminate|].
    intros [= <- <-]. simpl. split; [|split].
    + apply elem_of_app. right. apply list_elem_of_here.
    + apply lookup_insert_eq.
    + apply is_following_spec. split; [done|]. simpl.
      eexists _, now. apply lookup_insert_eq.
Qed.

Lemma self_edge_after_construction_witness :
  exists (db' : DB.t) (u : User.t),
    DB.create_user Sample.hash Sample.digest Sample.cfg "salt" 50
      Sample.kw_david Sample.db = Py.Ok (db', u)
    /\ u ∈ DB.users db'
    /\ DB.follows db' !! (User.id u, User.id u) = Some 50
    /\ User.is_following u u (DB.follows db') = true.
Proof.
  destruct (self_edge_after_construction Sample.hash Sample.digest Sample.cfg
              "salt" 50 Sample.kw_david Sample.db) as [Hret Hpost].
  destruct Hret as [[db' u] Hrun].
  - apply (bool_decide_unpack _). vm_compute. exact I.
  - reflexivity.
  - reflexivity.
  - exists db', u. split; [exact Hrun|]. apply Hpost, Hrun.
Defined.

(** ** Tokens *)

Lemma loads_dumps (key : string) (expires_in issued now : Z)
    (obj : Py.json) :
  Serializer.loads key now (Serializer.dumps key expires_in issued obj)
  = if bool_decide (issued + expires_in < now)
    then Py.Raise Py.SignatureExpired
    else Py.Ok obj.
Proof.
  unfold Serializer.loads, Serializer.dumps.
  by rewrite bool_decide_eq_true_2.
Qed.

(** C7. A token of [generate_reset_token] stores the user id under
    "rest", [reset_password] reads "reset": the token is rejected and
    the user is left as it was, whatever the times and the password. *)
Theorem reset_token_rejected
    (generate_password_hash : string -> string -> string) (cfg : Config.t)
    (issued now expiration : Z) (salt : string) (u : User.t)
    (new_password : string) :
  User.reset_password generate_password_hash cfg now salt u
    (User.generate_reset_token cfg issued u expiration) new_password
  = Py.Ok (false, u).
Proof.
  unfold User.reset_password, User.generate_reset_token.
  rewrite loads_dumps. case_bool_decide; simpl; [done|].
  unfold Py.get. by rewrite lookup_singleton_ne.
Qed.

(** C8, on a token that carries the integer 1 instead of an object
    and is signed with the secret key: [loads] accepts it and
    [data.get], which is outside the [try], raises. *)
Lemma confirm_raises_on_non_object :
  Serializer.loads (Config.SECRET_KEY Sample.cfg) 5
    (Serializer.dumps (Config.SECRET_KEY Sample.cfg) 3600 0
       (Py.JOther (Py.PInt 1)))
  = Py.Ok (Py.JOther (Py.PInt 1))
  /\ User.confirm Sample.cfg 5 Sample.john
       (Serializer.dumps (Config.SECRET_KEY Sample.cfg) 3600 0
          (Py.JOther (Py.PInt 1)))
     = Py.Raise Py.AttributeError.
Proof. vm_compute. done. Qed.

(** C8, amended. On a token whose payload is not an object when it
    verifies, [confirm] raises AttributeError.  On every other token it
    returns a boolean: when it returns [False] the user is unchanged;
    it returns [True], with [confirmed] set and nothing else changed,
    exactly when the token verifies and the [confirm] field of its
    payload is equal to the id of this user.  A token with a wrong
    signature, an expired token, a malformed token and a token
    generated for another user are all rejected. *)
Theorem confirm_fails_closed (cfg : Config.t) (now : Z) (u : User.t)
    (t : Serializer.token) :
  (forall v,
      Serializer.loads (Config.SECRET_KEY cfg) now t = Py.Ok (Py.JOther v) ->
      User.confirm cfg now u t = Py.Raise Py.AttributeError)
  /\ ((forall v,
         Serializer.loads (Config.SECRET_KEY cfg) now t
         <> Py.Ok (Py.JOther v)) ->
      exists (b : bool) (u' : User.t),
        User.confirm cfg now u t = Py.Ok (b, u')
        /\ (b = false -> u' = u)
        /\ (b = true ->
            User.confirmed u' = true /\ User.same_but_confirmed u u')
        /\ (b = true <->
            exists fields,
              Serializer.loads (Config.SECRET_KEY cfg) now t
              = Py.Ok (Py.JObject fields)
              /\ Py.ne (Py.get fields "confirm") (User.id u) = false)
        /\ (forall iat exp payload sig,
              t = Serializer.Signed iat exp payload sig ->
              sig <> Serializer.sign (Config.SECRET_KEY cfg) iat exp payload
              \/ exp < now ->
              b = false)
        /\ (forall raw, t = Serializer.Malformed raw -> b = false)
        /\ (forall (a : User.t) (issued expiration : Z),
              User.id a <> User.id u ->
              t = User.generate_confirmation_token cfg issued a expiration ->
              b = false)).
Proof.
  unfold User.confirm, Py.try_except. split.
  { intros v ->. reflexivity. }
  intros Hobj.
  destruct (Serializer.loads (Config.SECRET_KEY cfg) now t)
    as [[fields|v]|e] eqn:El; [| by destruct (Hobj v) |].
  - simpl. destruct (Py.ne (Py.get fields "confirm") (User.id u)) eqn:Hid.
    + exists false, u. split; [done|]. split; [done|]. split; [done|].
      split; [|done].
      split; [done|]. intros (fields' & [= <-] & Hget). congruence.
    + exists true, (User.set_confirmed true u).
      split; [done|]. split; [done|].
      split; [intros _; split; [done|]; by repeat split|].
      split; [split; [intros _; by exists fields | done]|].
      split; [|split].
      * intros iat exp payload sig -> Hbad. simpl in El.
        case_bool_decide; [|done]. case_bool_decide; [done|].
        destruct Hbad; [done|lia].
      * intros raw ->. done.
      * intros a issued expiration Hne ->.
        unfold User.generate_confirmation_token in El.
        rewrite loads_dumps in El. case_bool_decide; [done|].
        injection El as <-. unfold Py.get in Hid.
        rewrite lookup_singleton_eq in Hid. simpl in Hid.
        by rewrite bool_decide_eq_false_2 in Hid.
  - exists false, u. split; [done|]. split; [done|]. split; [done|].
    split; [|done].
    split; [done|]. intros (fields' & [=] & _).
Qed.

Lemma confirm_fails_closed_witness :
  exists (b : bool) (u' : User.t),
    User.confirm Sample.cfg 5 Sample.susan
      (User.generate_confirmation_token Sample.cfg 0 Sample.john 3600)
    = Py.Ok (b, u')
    /\ b = false /\ u' = Sample.susan.
Proof.
  destruct (proj2 (confirm_fails_closed Sample.cfg 5 Sample.susan
                     (User.generate_confirmation_token Sample.cfg 0
                        Sample.john 3600)))
    as (b & u' & Hrun & Hfalse & _ & _ & _ & _ & Hother).
  { intros v. vm_compute. discriminate. }
  assert (b = false) as Hb.
  { apply (Hother Sample.john 0 3600); [vm_compute; discriminate|reflexivity]. }
  exists b, u'. split; [exact Hrun|]. split; [exact Hb|]. apply Hfalse, Hb.
Defined.

(** A confirmation token that has not expired confirms its own user. *)
Lemma confirm_own_token (cfg : Config.t) (issued now expiration : Z)
    (u : User.t) :
  now <= issued + expiration ->
  User.confirm cfg now u
    (User.generate_confirmation_token cfg issued u expiration)
  = Py.Ok (true, User.set_confirmed true u).
Proof.
  intros Hlive. unfold User.confirm, User.generate_confirmation_token.
  rewrite loads_dumps. rewrite bool_decide_eq_false_2 by lia. simpl.
  unfold Py.get, Py.ne. rewrite lookup_singleton_eq.
  by rewrite bool_decide_eq_true_2.
Qed.

(** An expired confirmation token is rejected: issued with a one-second
    life, checked two seconds later. *)
Lemma confirm_expired_token (cfg : Config.t) (issued : Z) (u : User.t) :
  User.confirm cfg (issued + 2) u
    (User.generate_confirmation_token cfg issued u 1)
  = Py.Ok (false, u).
Proof.
  unfold User.confirm, User.generate_confirmation_token.
  rewrite loads_dumps. by rewrite bool_decide_eq_true_2 by lia.
Qed.

(** C10. When [change_email] returns [True], the address is the one in
    the token, the digest of the new address is stored in [avatar_has],
    and [avatar_hash] is what it was. *)
Theorem change_email_keeps_avatar_hash (md5_hexdigest : string -> string)
    (cfg : Config.t) (now : Z) (users : list User.t) (u u' : User.t)
    (t : Serializer.token) :
  User.change_email md5_hexdigest cfg now users u t = Py.Ok (true, u') ->
  exists data new_email,
    Serializer.loads (Config.SECRET_KEY cfg) now t = Py.Ok (Py.JObject data)
    /\ Py.get data "new_email" = Py.PStr new_email
    /\ User.email u' = Some new_email
    /\ User.avatar_has u' = Some (md5_hexdigest new_email)
    /\ User.avatar_hash u' = User.avatar_hash u.
Proof.
  unfold User.change_email, Py.try_except.
  destruct (Serializer.loads (Config.SECRET_KEY cfg) now t)
    as [[data|v]|e]; [|discriminate..]. simpl.
  destruct (Py.ne _ _); [discriminate|].
  destruct (Py.get data "new_email") as [| | | |new_email|] eqn:Hnew;
    try discriminate.
  destruct (User.email_registered new_email users); [discriminate|].
  intros [= <-]. exists data, new_email. done.
Qed.

Lemma change_email_keeps_avatar_hash_witness :
  exists u' : User.t,
    User.change_email Sample.digest Sample.cfg 5
      [Sample.john; Sample.susan; Sample.mary] Sample.mary
      (User.generate_email_change_token Sample.cfg 0 Sample.mary
         "mary@example.org" 3600)
    = Py.Ok (true, u')
    /\ User.email u' = Some "mary@example.org"
    /\ User.avatar_has u' = Some (Sample.digest "mary@example.org")
    /\ User.avatar_hash u' = Some (Sample.digest "mary@example.com").
Proof.
  eexists. split; [vm_compute; reflexivity|].
  destruct (change_email_keeps_avatar_hash Sample.digest Sample.cfg 5
              [Sample.john; Sample.susan; Sample.mary] Sample.mary
              (User.set_avatar_has (Some (Sample.digest "mary@example.org"))
                 (User.set_email (Some "mary@example.org") Sample.mary))
              (User.generate_email_change_token Sample.cfg 0 Sample.mary
                 "mary@example.org" 3600))
    as (data & new_email & Hload & Hnew & Hemail & Hhas & Hhash).
  - vm_compute. reflexivity.
  - split; [reflexivity|]. split; [reflexivity|]. exact Hhash.
Defined.

(** ** Rendered bodies *)

Section Rendering.

Variable markdown : string -> string.
Variable bleach_clean : string -> list string -> bool -> string.
Variable bleach_linkify : string -> string.

(** Assigning a post's body stores the text and the render of that
    text, whatever the post held before. *)
Lemma Post_set_body_render (target : Post.t) (value : string) :
  Post.body (Post.set_body markdown bleach_clean bleach_linkify target value)
  = Some value
  /\ Post.body_html
       (Post.set_body markdown bleach_clean bleach_linkify target value)
     = Some (bleach_linkify
               (bleach_clean (markdown value) Post.allowed_tags true)).
Proof. done. Qed.

Lemma Comment_set_body_render (target : Comment.t) (value : string) :
  Comment.body
    (Comment.set_body markdown bleach_clean bleach_linkify target value)
  = Some value
  /\ Comment.body_html
       (Comment.set_body markdown bleach_clean bleach_linkify target value)
     = Some (bleach_linkify
               (bleach_clean (markdown value) Comment.allowed_tags true)).
Proof. done. Qed.

End Rendering.

(** Every tag allowed in a comment is allowed in a post, and a post allows
    tags that a comment does not. *)
Lemma comment_tags_strict_subset :
  Comment.allowed_tags ⊆ Post.allowed_tags
  /\ "p" ∈ Post.allowed_tags /\ "p" ∉ Comment.allowed_tags.
Proof.
  split; [|split].
  - apply (bool_decide_unpack _). vm_compute. exact I.
  - apply (bool_decide_unpack _). vm_compute. exact I.
  - apply (bool_decide_unpack _). vm_compute. exact I.
Qed.

(** ** More on role provisioning *)

Section RoleTable.

Implicit Types (tbl : list Role.t) (x y : Role.t) (r : string).

Lemma first_by_name_app r tbl y :
  Role.first_by_name r (tbl ++ [y])
  = match Role.first_by_name r tbl with
    | Some x => Some x
    | None => if bool_decide (Role.name y = r) then Some y else None
    end.
Proof.
  unfold Role.first_by_name. induction tbl as [|x tbl IH]; simpl.
  - by destruct (bool_decide _).
  - by destruct (bool_decide (Role.name x = r)).
Qed.

Lemma first_by_name_update_same r p d tbl x :
  Role.first_by_name r tbl = Some x ->
  Role.first_by_name r (Role.update r p d tbl)
  = Some (Role.mk (Role.id x) (Role.name x) d p).
Proof.
  unfold Role.first_by_name. induction tbl as [|z tbl IH]; simpl; [done|].
  destruct (bool_decide (Role.name z = r)) eqn:E; simpl.
  - intros [= ->]. by rewrite E.
  - intros H. rewrite E. by apply IH.
Qed.

Lemma first_by_name_update_other r r' p d tbl :
  r <> r' ->
  Role.first_by_name r' (Role.update r p d tbl) = Role.first_by_name r' tbl.
Proof.
  intros Hne. unfold Role.first_by_name.
  induction tbl as [|z tbl IH]; simpl; [done|].
  destruct (bool_decide (Role.name z = r)) eqn:E; simpl.
  - apply bool_decide_eq_true in E.
    rewrite !bool_decide_eq_false_2 by congruence. done.
  - destruct (bool_decide (Role.name z = r')); [done|]. apply IH.
Qed.

Lemma update_settled r p d tbl x :
  Role.first_by_name r tbl = Some x ->
  Role.permissions x = p -> Role.default x = d ->
  Role.update r p d tbl = tbl.
Proof.
  unfold Role.first_by_name. induction tbl as [|z tbl IH]; simpl; [done|].
  destruct (bool_decide (Role.name z = r)) eqn:E.
  - intros [= ->] <- <-. by destruct x.
  - intros H Hp Hd. f_equal. by apply IH.
Qed.

Lemma upsert_settles tbl (e : string * (Z * bool)) :
  exists x,
    Role.first_by_name e.1 (Role.upsert tbl e) = Some x
    /\ Role.name x = e.1
    /\ Role.permissions x = e.2.1 /\ Role.default x = e.2.2.
Proof.
  unfold Role.upsert.
  destruct (Role.first_by_name e.1 tbl) as [x|] eqn:E.
  - eexists. split; [by apply first_by_name_update_same|]. simpl.
    split; [|done]. unfold Role.first_by_name in E.
    apply find_some in E as [_ E]. by apply bool_decide_eq_true in E.
  - eexists. rewrite first_by_name_app, E. simpl.
    rewrite bool_decide_eq_true_2 by done. done.
Qed.

Lemma upsert_other tbl (e : string * (Z * bool)) r :
  e.1 <> r ->
  Role.first_by_name r (Role.upsert tbl e) = Role.first_by_name r tbl.
Proof.
  intros Hne. unfold Role.upsert.
  destruct (Role.first_by_name e.1 tbl) as [x|] eqn:E.
  - by apply first_by_name_update_other.
  - rewrite first_by_name_app. destruct (Role.first_by_name r tbl); [done|].
    simpl. by rewrite bool_decide_eq_false_2.
Qed.

Lemma upsert_settled tbl (e : string * (Z * bool)) x :
  Role.first_by_name e.1 tbl = Some x ->
  Role.permissions x = e.2.1 -> Role.default x = e.2.2 ->
  Role.upsert tbl e = tbl.
Proof.
  intros E Hp Hd. unfold Role.upsert. rewrite E.
  by apply (update_settled _ _ _ _ x).
Qed.

Lemma insert_roles_unfold tbl :
  Role.insert_roles tbl
  = Role.upsert
      (Role.upsert (Role.upsert tbl ("User", (0x07, true)))
                   ("Moderator", (0x0f, false)))
      ("Administrator", (0xff, false)).
Proof. reflexivity. Qed.

End RoleTable.

Lemma insert_roles_settles (tbl : list Role.t) :
  (exists x,
      Role.first_by_name "User" (Role.insert_roles tbl) = Some x
      /\ Role.name x = "User" /\ Role.permissions x = 7
      /\ Role.default x = true)
  /\ (exists x,
        Role.first_by_name "Moderator" (Role.insert_roles tbl) = Some x
        /\ Role.name x = "Moderator" /\ Role.permissions x = 15
        /\ Role.default x = false)
  /\ (exists x,
        Role.first_by_name "Administrator" (Role.insert_roles tbl) = Some x
        /\ Role.name x = "Administrator" /\ Role.permissions x = 255
        /\ Role.default x = false).
Proof.
  rewrite insert_roles_unfold.
  set (t1 := Role.upsert tbl ("User", (7, true))).
  set (t2 := Role.upsert t1 ("Moderator", (15, false))).
  split; [|split].
  - rewrite (upsert_other t2 ("Administrator", (255, false)) "User") by done.
    unfold t2.
    rewrite (upsert_other t1 ("Moderator", (15, false)) "User") by done.
    apply (upsert_settles tbl ("User", (7, true))).
  - rewrite (upsert_other t2 ("Administrator", (255, false)) "Moderator")
      by done.
    apply (upsert_settles t1 ("Moderator", (15, false))).
  - apply (upsert_settles t2 ("Administrator", (255, false))).
Qed.

(** X1. Whatever the table holds, after [insert_roles] the lookup by
    name of each of the three roles finds a row with the mask and the
    default flag of the dictionary. *)
Theorem insert_roles_lookup (tbl : list Role.t) (r : string) (p : Z)
    (d : bool) :
  (r, (p, d)) ∈ Role.roles ->
  exists x,
    Role.first_by_name r (Role.insert_roles tbl) = Some x
    /\ Role.name x = r /\ Role.permissions x = p /\ Role.default x = d.
Proof.
  intros Hin. unfold Role.roles in Hin.
  destruct (insert_roles_settles tbl) as (Huser & Hmod & Hadmin).
  repeat (apply elem_of_cons in Hin as [Hin | Hin]);
    [| | |by apply elem_of_nil in Hin];
    vm_compute in Hin; injection Hin as -> -> ->; assumption.
Qed.

Lemma insert_roles_lookup_witness :
  exists x,
    Role.first_by_name "User"
      (Role.insert_roles [Role.mk 5 "User" false 0; Role.mk 6 "Guest" true 0])
    = Some x
    /\ Role.name x = "User" /\ Role.permissions x = 7
    /\ Role.default x = true.
Proof.
  apply (insert_roles_lookup
           [Role.mk 5 "User" false 0; Role.mk 6 "Guest" true 0]
           "User" 7 true).
  vm_compute. apply list_elem_of_here.
Defined.

(** X2. [insert_roles] is idempotent on every table: running it again
    changes nothing. *)
Theorem insert_roles_idempotent (tbl : list Role.t) :
  Role.insert_roles (Role.insert_roles tbl) = Role.insert_roles tbl.
Proof.
  destruct (insert_roles_settles tbl)
    as ((x1 & H1 & _ & Hp1 & Hd1) & (x2 & H2 & _ & Hp2 & Hd2)
        & (x3 & H3 & _ & Hp3 & Hd3)).
  set (t := Role.insert_roles tbl) in *. rewrite (insert_roles_unfold t).
  rewrite (upsert_settled t ("User", (7, true)) x1 H1 Hp1 Hd1).
  rewrite (upsert_settled t ("Moderator", (15, false)) x2 H2 Hp2 Hd2).
  by rewrite (upsert_settled t ("Administrator", (255, false)) x3 H3 Hp3 Hd3).
Qed.

Lemma update_lookup (r : string) (p : Z) (d : bool) (tbl : list Role.t)
    (i : nat) (x : Role.t) :
  tbl !! i = Some x ->
  exists y,
    Role.update r p d tbl !! i = Some y
    /\ Role.id y = Role.id x /\ Role.name y = Role.name x
    /\ (Role.name x <> r -> y = x).
Proof.
  revert i. induction tbl as [|z tbl IH]; intros i; [done|]. simpl.
  destruct (bool_decide (Role.name z = r)) eqn:E.
  - destruct i as [|i]; simpl.
    + intros [= ->]. eexists. split; [done|]. simpl. split; [done|].
      split; [done|]. apply bool_decide_eq_true in E. done.
    + intros H. exists x. done.
  - destruct i as [|i]; simpl.
    + intros [= ->]. exists x. done.
    + apply IH.
Qed.

Lemma upsert_lookup (tbl : list Role.t) (e : string * (Z * bool)) (i : nat)
    (x : Role.t) :
  tbl !! i = Some x ->
  exists y,
    Role.upsert tbl e !! i = Some y
    /\ Role.id y = Role.id x /\ Role.name y = Role.name x
    /\ (Role.name x <> e.1 -> y = x).
Proof.
  intros H. unfold Role.upsert. destruct (Role.first_by_name e.1 tbl).
  - by apply update_lookup.
  - exists x. split; [|done]. by apply lookup_app_l_Some.
Qed.

(** X3. [insert_roles] deletes and moves no row: every row stays at its
    position with its key and its name, and a row whose name is none of
    the three role names is left exactly as it was. *)
Theorem insert_roles_keeps_rows (tbl : list Role.t) (i : nat) (x : Role.t) :
  tbl !! i = Some x ->
  exists y,
    Role.insert_roles tbl !! i = Some y
    /\ Role.id y = Role.id x /\ Role.name y = Role.name x
    /\ (Role.name x ∉ map fst Role.roles -> y = x).
Proof.
  intros H0. rewrite insert_roles_unfold.
  destruct (upsert_lookup tbl ("User", (7, true)) i x H0)
    as (y1 & H1 & Hi1 & Hn1 & Hk1).
  destruct (upsert_lookup _ ("Moderator", (15, false)) i y1 H1)
    as (y2 & H2 & Hi2 & Hn2 & Hk2).
  destruct (upsert_lookup _ ("Administrator", (255, false)) i y2 H2)
    as (y3 & H3 & Hi3 & Hn3 & Hk3).
  exists y3. split; [done|]. split; [congruence|]. split; [congruence|].
  intros Hout. simpl in Hout.
  assert (Role.name x <> "User" /\ Role.name x <> "Moderator"
          /\ Role.name x <> "Administrator") as (N1 & N2 & N3).
  { repeat split; intros Heq; apply Hout; rewrite Heq;
      repeat first [apply list_elem_of_here | apply list_elem_of_further]. }
  simpl in *. rewrite Hk3, Hk2, Hk1; congruence.
Qed.

Lemma insert_roles_keeps_rows_witness :
  exists y,
    Role.insert_roles [Role.mk 5 "User" false 0; Role.mk 6 "Guest" true 0]
      !! 1%nat = Some y
    /\ Role.id y = 6 /\ Role.name y = "Guest"
    /\ ("Guest" ∉ map fst Role.roles -> y = Role.mk 6 "Guest" true 0).
Proof.
  apply (insert_roles_keeps_rows
           [Role.mk 5 "User" false 0; Role.mk 6 "Guest" true 0] 1
           (Role.mk 6 "Guest" true 0)).
  reflexivity.
Defined.

(** ** More on permissions and construction *)

Lemma land_lor_superset (p a b : Z) :
  Z.land p (Z.lor a b) = Z.lor a b <-> Z.land p a = a /\ Z.land p b = b.
Proof.
  split.
  - intros H.
    assert (forall n, Z.testbit (Z.lor a b) n = true -> Z.testbit p n = true)
      as Hbits.
    { intros n Hn. rewrite <- H in Hn. rewrite Z.land_spec in Hn.
      by apply andb_true_iff in Hn as [Hp _]. }
    split; apply Z.bits_inj'; intros n _; rewrite Z.land_spec.
    + destruct (Z.testbit a n) eqn:Ea; [|apply andb_false_r].
      rewrite Hbits; [done|]. rewrite Z.lor_spec, Ea. done.
    + destruct (Z.testbit b n) eqn:Eb; [|apply andb_false_r].
      rewrite Hbits; [done|]. rewrite Z.lor_spec, Eb. apply orb_true_r.
  - intros [Ha Hb]. rewrite Z.land_lor_distr_r. by rewrite Ha, Hb.
Qed.

(** X4. Asking for the union of two masks is asking for both: [can] at
    [m1 | m2] is [can] at [m1] and [can] at [m2]. *)
Theorem can_lor (u : User.t) (m1 m2 : Z) :
  User.can u (Z.lor m1 m2) = User.can u m1 && User.can u m2.
Proof.
  unfold User.can. destruct (User.role u) as [r|]; [|done].
  apply eq_bool_prop_intro.
  rewrite andb_True, !bool_decide_spec. apply land_lor_superset.
Qed.

(** X5. On the table that [insert_roles] provisions, a user constructed
    without a role gets one: the Administrator role (0xff) when its
    address equals FLASKY_ADMIN, which includes the case where both are
    [None], and the default User role (0x07) otherwise. *)
Theorem init_role_provisioned
    (generate_password_hash : string -> string -> string)
    (md5_hexdigest : string -> string) (cfg : Config.t)
    (tbl : list Role.t) (salt : string) (pk now : Z) (kw : User.kwargs) :
  Role.provisioned tbl -> tbl <> [] -> User.kw_role kw = None ->
  exists r,
    User.role (User.init generate_password_hash md5_hexdigest cfg tbl salt
                 pk now kw) = Some r
    /\ r ∈ tbl
    /\ Role.permissions r
       = if bool_decide (User.kw_email kw = Config.FLASKY_ADMIN cfg)
         then 0xff else 0x07.
Proof.
  intros Hp Hne Hrole. apply provisioned_tables in Hp as [-> | ->]; [done|].
  unfold User.init. simpl. rewrite Hrole.
  destruct (bool_decide (User.kw_email kw = Config.FLASKY_ADMIN cfg));
    vm_compute; eexists; (split; [reflexivity|]); (split; [|reflexivity]).
  - do 2 apply list_elem_of_further. apply list_elem_of_here.
  - apply list_elem_of_here.
Qed.

(** With FLASKY_ADMIN unset, a user without an address is made an
    administrator. *)
Lemma init_role_provisioned_witness :
  exists r,
    User.role (User.init Sample.hash Sample.digest Sample.cfg
                 (Role.insert_roles []) "salt" 7 50
                 (User.mk_kwargs None None (Some "cat") None None None None
                    None None None)) = Some r
    /\ r ∈ Role.insert_roles []
    /\ Role.permissions r = 0xff.
Proof.
  apply (init_role_provisioned Sample.hash Sample.digest Sample.cfg
           (Role.insert_roles []) "salt" 7 50
           (User.mk_kwargs None None (Some "cat") None None None None
              None None None)).
  - apply Role.provisioned_insert, Role.provisioned_created.
  - vm_compute. discriminate.
  - reflexivity.
Defined.

(** ** More on tokens *)

(** Evaluates a token method on a token that a generator produced. *)
Ltac token_roundtrip :=
  unfold User.confirm, User.reset_password, User.change_email,
    User.generate_confirmation_token, User.generate_reset_token,
    User.generate_email_change_token, Api.generate_auth_token,
    Api.verify_auth_token, Api.subscript;
  rewrite loads_dumps; case_bool_decide; simpl; [try done|];
  unfold Py.get, Py.ne;
  rewrite ?lookup_insert_eq, ?lookup_singleton_eq;
  rewrite ?lookup_insert_ne by done;
  rewrite ?lookup_singleton_eq;
  rewrite ?lookup_singleton_ne by done; simpl.

Lemma confirm_generated_outcome (cfg : Config.t)
    (issued now expiration : Z) (a u : User.t) :
  User.confirm cfg now u
    (User.generate_confirmation_token cfg issued a expiration)
  = if bool_decide (issued + expiration < now)
       || negb (bool_decide (User.id a = User.id u))
    then Py.Ok (false, u)
    else Py.Ok (true, User.set_confirmed true u).
Proof.
  token_roundtrip. case_bool_decide as Ha; simpl; done.
Qed.

(** X6. The outcome of [confirm] on a confirmation token: it returns
    [True] exactly when the token is the user's own and has not
    expired, and then the user has [confirmed] set to [True] and every
    other column as before; when it returns [False] the user is
    unchanged. *)
Theorem confirm_generated_token (cfg : Config.t)
    (issued now expiration : Z) (a u : User.t) :
  exists (b : bool) (u' : User.t),
    User.confirm cfg now u
      (User.generate_confirmation_token cfg issued a expiration)
    = Py.Ok (b, u')
    /\ b = negb (bool_decide (issued + expiration < now))
           && bool_decide (User.id a = User.id u)
    /\ (b = true ->
        User.confirmed u' = true /\ User.same_but_confirmed u u')
    /\ (b = false -> u' = u).
Proof.
  rewrite confirm_generated_outcome.
  destruct (bool_decide (issued + expiration < now)); simpl.
  - exists false, u. done.
  - destruct (bool_decide (User.id a = User.id u)); simpl.
    + exists true, (User.set_confirmed true u).
      split; [done|]. split; [done|]. split; [|done].
      intros _. split; [done|]. by repeat split.
    + exists false, u. done.
Qed.

(** susan was not confirmed; her own token confirms her. *)
Lemma confirm_generated_token_witness :
  User.confirmed Sample.susan = false
  /\ exists u' : User.t,
       User.confirm Sample.cfg 5 Sample.susan
         (User.generate_confirmation_token Sample.cfg 0 Sample.susan 3600)
       = Py.Ok (true, u')
       /\ User.confirmed u' = true /\ User.email u' = User.email Sample.susan.
Proof.
  split; [reflexivity|].
  destruct (confirm_generated_token Sample.cfg 0 5 3600 Sample.susan
              Sample.susan) as (b & u' & Hrun & Hb & Htrue & _).
  vm_compute in Hb. subst b. exists u'. split; [exact Hrun|].
  destruct (Htrue eq_refl) as (Hc & _ & He & _). split; [exact Hc|exact He].
Defined.

(** X7. A token is good for its own purpose only: [confirm] rejects
    reset, email-change and authentication tokens, [reset_password]
    rejects confirmation and email-change tokens, and [change_email]
    rejects confirmation and reset tokens, even the user's own and
    unexpired ones. *)
Theorem tokens_single_purpose
    (generate_password_hash : string -> string -> string)
    (md5_hexdigest : string -> string) (cfg : Config.t)
    (issued now expiration : Z) (a u : User.t) (users : list User.t)
    (address salt password : string) :
  User.confirm cfg now u (User.generate_reset_token cfg issued a expiration)
  = Py.Ok (false, u)
  /\ User.confirm cfg now u
       (User.generate_email_change_token cfg issued a address expiration)
     = Py.Ok (false, u)
  /\ User.confirm cfg now u (Api.generate_auth_token cfg issued a expiration)
     = Py.Ok (false, u)
  /\ User.reset_password generate_password_hash cfg now salt u
       (User.generate_confirmation_token cfg issued a expiration) password
     = Py.Ok (false, u)
  /\ User.reset_password generate_password_hash cfg now salt u
       (User.generate_email_change_token cfg issued a address expiration)
       password
     = Py.Ok (false, u)
  /\ User.change_email md5_hexdigest cfg now users u
       (User.generate_confirmation_token cfg issued a expiration)
     = Py.Ok (false, u)
  /\ User.change_email md5_hexdigest cfg now users u
       (User.generate_reset_token cfg issued a expiration)
     = Py.Ok (false, u).
Proof. repeat split; token_roundtrip; done. Qed.

(** X9. The outcome of [change_email] on an email-change token: [False]
    with the user unchanged when the token has expired, was generated
    for another user or names an address that some user already has,
    the user's own current address included; otherwise [True] with
    the new address stored. *)
Theorem change_email_generated_token (md5_hexdigest : string -> string)
    (cfg : Config.t) (issued now expiration : Z) (a u : User.t)
    (users : list User.t) (address : string) :
  User.change_email md5_hexdigest cfg now users u
    (User.generate_email_change_token cfg issued a address expiration)
  = if bool_decide (issued + expiration < now)
       || negb (bool_decide (User.id a = User.id u))
       || User.email_registered address users
    then Py.Ok (false, u)
    else Py.Ok (true,
                User.set_avatar_has (Some (md5_hexdigest address))
                  (User.set_email (Some address) u)).
Proof.
  token_roundtrip.
  destruct (bool_decide (User.id a = User.id u)); simpl; [|done].
  by destruct (User.email_registered address users).
Qed.

Section AuthTokens.

Variable query_get_other :
  Py.value -> list User.t -> Api.res (option User.t).

Lemma query_get_member (u : User.t) (users : list User.t) :
  NoDup (map User.id users) -> u ∈ users ->
  Api.query_get query_get_other (Py.PInt (User.id u)) users
  = Api.Return (Some u).
Proof.
  simpl. intros Hnd Hin. f_equal. revert Hnd Hin.
  induction users as [|v users IH]; simpl.
  - intros _ H. by apply elem_of_nil in H.
  - intros [Hv Hnd]%NoDup_cons [-> | Hin]%elem_of_cons.
    + by rewrite bool_decide_eq_true_2.
    + rewrite bool_decide_eq_false_2; [by apply IH|].
      intros Heq. apply Hv. rewrite Heq.
      apply list_elem_of_fmap. by exists u.
Qed.

Lemma query_get_absent (n : Z) (users : list User.t) :
  n ∉ map User.id users ->
  Api.query_get query_get_other (Py.PInt n) users = Api.Return None.
Proof.
  simpl. intros Hout. f_equal. revert Hout.
  induction users as [|v users IH]; simpl; [done|].
  intros [Hv Hin]%not_elem_of_cons.
  rewrite bool_decide_eq_false_2 by done. by apply IH.
Qed.

(** X10. [verify_auth_token] on a token of [generate_auth_token]: the
    user of the token while the token has not expired and the user is in
    the table, [None] once the token has expired or the user is gone. *)
Theorem verify_auth_token_roundtrip (cfg : Config.t)
    (issued now expiration : Z) (u : User.t) (users : list User.t) :
  (issued + expiration < now ->
   Api.verify_auth_token query_get_other cfg now users
     (Api.generate_auth_token cfg issued u expiration) = Api.Return None)
  /\ (now <= issued + expiration ->
      NoDup (map User.id users) -> u ∈ users ->
      Api.verify_auth_token query_get_other cfg now users
        (Api.generate_auth_token cfg issued u expiration)
      = Api.Return (Some u))
  /\ (now <= issued + expiration ->
      User.id u ∉ map User.id users ->
      Api.verify_auth_token query_get_other cfg now users
        (Api.generate_auth_token cfg issued u expiration)
      = Api.Return None).
Proof.
  split; [|split].
  - intros Hexp. token_roundtrip; try lia.
  - intros Hlive Hnd Hin. token_roundtrip; try lia.
    by apply query_get_member.
  - intros Hlive Hout. token_roundtrip; try lia.
    by apply query_get_absent.
Qed.

(** X11. [verify_auth_token] does not fail closed: an unexpired token
    that was signed for another purpose verifies, has no "id", and the
    subscript raises [KeyError] outside the [try]. *)
Theorem verify_auth_token_key_error (cfg : Config.t)
    (issued now expiration : Z) (a : User.t) (users : list User.t)
    (address : string) :
  now <= issued + expiration ->
  Api.verify_auth_token query_get_other cfg now users
    (User.generate_confirmation_token cfg issued a expiration)
  = Api.Raise (Api.KeyError "id")
  /\ Api.verify_auth_token query_get_other cfg now users
       (User.generate_reset_token cfg issued a expiration)
     = Api.Raise (Api.KeyError "id")
  /\ Api.verify_auth_token query_get_other cfg now users
       (User.generate_email_change_token cfg issued a address expiration)
     = Api.Raise (Api.KeyError "id").
Proof.
  intros Hlive. repeat split; token_roundtrip; first [lia | done].
Qed.

End AuthTokens.

Lemma verify_auth_token_roundtrip_witness :
  Api.verify_auth_token Fixture.no_coercion Sample.cfg 5 Fixture.users
    (Api.generate_auth_token Sample.cfg 0 Fixture.bob 3600)
  = Api.Return (Some Fixture.bob).
Proof.
  apply (proj1 (proj2 (verify_auth_token_roundtrip Fixture.no_coercion
                         Sample.cfg 0 5 3600 Fixture.bob Fixture.users))).
  - vm_compute. discriminate.
  - apply (bool_decide_unpack _). vm_compute. exact I.
  - apply list_elem_of_further, list_elem_of_here.
Defined.

Lemma verify_auth_token_key_error_witness :
  Api.verify_auth_token Fixture.no_coercion Sample.cfg 5 Fixture.users
    (User.generate_confirmation_token Sample.cfg 0 Fixture.ann 3600)
  = Api.Raise (Api.KeyError "id").
Proof.
  refine (proj1 (verify_auth_token_key_error Fixture.no_coercion Sample.cfg
                   0 5 3600 Fixture.ann Fixture.users "x@example.com" _)).
  vm_compute. discriminate.
Defined.

(** ** More on the follow graph *)

(** X12. [unfollow] touches one key: the edge (a, b) is absent
    afterwards, every other edge is as it was, unfollowing somebody who
    is not followed changes nothing, and a second [unfollow] changes
    nothing more. *)
Theorem unfollow_only_that_edge (a b : User.t) (follows : gmap (Z * Z) Z) :
  User.unfollow a b follows !! (User.id a, User.id b) = None
  /\ (forall k, k <> (User.id a, User.id b) ->
        User.unfollow a b follows !! k = follows !! k)
  /\ (follows !! (User.id a, User.id b) = None ->
      User.unfollow a b follows = follows)
  /\ User.unfollow a b (User.unfollow a b follows) = User.unfollow a b follows.
Proof.
  rewrite !unfollow_delete. split; [apply lookup_delete_eq|].
  split; [intros k Hk; by apply lookup_delete_ne|].
  split; [apply delete_id|]. apply delete_id, lookup_delete_eq.
Qed.

Lemma unfollow_only_that_edge_witness :
  User.unfollow Sample.john Sample.susan Sample.follows !! (1, 1)
  = Sample.follows !! (1, 1).
Proof.
  apply (proj1 (proj2 (unfollow_only_that_edge Sample.john Sample.susan
                         Sample.follows))).
  vm_compute. discriminate.
Defined.

(** X13. Between two different users the graph operations agree with
    [is_followed_by]: when [follow(a, b)] returns, the edge carries the
    current timestamp and b is followed by a; after [unfollow(a, b)] it
    is not. *)
Theorem follow_then_is_followed_by (now : Z) (a b : User.t)
    (follows follows' : gmap (Z * Z) Z) :
  User.id a <> User.id b ->
  User.follow now a b follows = Py.Ok follows' ->
  follows' !! (User.id a, User.id b) = Some now
  /\ User.is_followed_by b a follows' = true
  /\ User.is_followed_by b a (User.unfollow a b follows') = false.
Proof.
  intros Hne. rewrite (follow_distinct now a b follows Hne).
  unfold Follow.session_add. simpl.
  destruct (follows !! (User.id a, User.id b)); [discriminate|].
  intros [= <-].
  assert (<[(User.id a, User.id b) := now]> follows
            !! (User.id a, User.id b) = Some now) as Hl
    by apply lookup_insert_eq.
  split; [done|]. split.
  - apply is_followed_by_edge. by exists now.
  - apply not_true_is_false. rewrite is_followed_by_edge, unfollow_delete.
    rewrite lookup_delete_eq. by intros [? ?].
Qed.

Lemma follow_then_is_followed_by_witness :
  User.is_followed_by Fixture.ann Fixture.bob
    (<[(2, 1) := 40]> Fixture.follows) = true.
Proof.
  apply (follow_then_is_followed_by 40 Fixture.bob Fixture.ann
           Fixture.follows (<[(2, 1) := 40]> Fixture.follows)).
  - vm_compute. discriminate.
  - vm_compute. reflexivity.
Defined.

Lemma self_follow_step (t : Z) (u : User.t) (follows : gmap (Z * Z) Z) :
  exists follows1,
    (if negb (User.is_following u u follows)
     then User.follow t u u follows else Py.Ok follows) = Py.Ok follows1
    /\ (follows1 = follows /\ User.is_following u u follows = true
        \/ follows1 = <[(User.id u, User.id u) := t]> follows
           /\ forall c, follows !! (User.id u, c) = None).
Proof.
  unfold User.follow.
  destruct (User.is_following u u follows) eqn:E; simpl.
  - exists follows. split; [done|]. by left.
  - assert (forall c, follows !! (User.id u, c) = None) as Hnone.
    { intros c. destruct (follows !! (User.id u, c)) as [ts|] eqn:Hc; [|done].
      assert (User.is_following u u follows = true) as Ht
        by (apply is_following_spec; split; [done|]; by exists c, ts).
      congruence. }
    unfold Follow.session_add. simpl. rewrite Hnone.
    eexists. split; [done|]. by right.
Qed.

Lemma add_self_follows_cons (clock : Z -> Z) (u : User.t)
    (users : list User.t) (follows follows1 : gmap (Z * Z) Z) :
  (if negb (User.is_following u u follows)
   then User.follow (clock (User.id u)) u u follows
   else Py.Ok follows) = Py.Ok follows1 ->
  Graph.add_self_follows clock (u :: users) follows
  = Graph.add_self_follows clock users follows1.
Proof. intros H. unfold Graph.add_self_follows. simpl. by rewrite H. Qed.

Lemma add_self_follows_invariants (clock : Z -> Z) (users : list User.t) :
  forall follows : gmap (Z * Z) Z,
  exists follows',
    Graph.add_self_follows clock users follows = Py.Ok follows'
    /\ (forall k t, follows !! k = Some t -> follows' !! k = Some t)
    /\ (forall u, u ∈ users -> User.is_following u u follows' = true)
    /\ (forall a b,
          follows !! (a, b) = None -> is_Some (follows' !! (a, b)) ->
          a = b /\ a ∈ map User.id users
          /\ forall c, follows !! (a, c) = None).
Proof.
  induction users as [|u users IH]; intros follows.
  - exists follows. split; [done|]. split; [done|].
    split; [intros u H; by apply elem_of_nil in H|].
    intros a b -> [? ?]. done.
  - destruct (self_follow_step (clock (User.id u)) u follows)
      as (f1 & Hstep & Hcase).
    rewrite (add_self_follows_cons clock u users follows f1 Hstep).
    destruct (IH f1) as (f' & Hrun & Hkeep & Hself & Hnew).
    assert (forall k t, follows !! k = Some t -> f1 !! k = Some t) as Hkeep1.
    { intros k t Hk. destruct Hcase as [[-> _] | [-> Hnone]]; [done|].
      rewrite lookup_insert_ne; [done|]. intros <-.
      rewrite Hnone in Hk. done. }
    assert (User.is_following u u f1 = true) as Hu.
    { destruct Hcase as [[-> H] | [-> _]]; [done|].
      apply is_following_spec. split; [done|].
      eexists _, _. apply lookup_insert_eq. }
    exists f'. split; [done|]. split; [by auto|]. split.
    + intros v [-> | Hin]%elem_of_cons; [|by apply Hself].
      apply is_following_spec in Hu as [_ (c & ts & Hc)].
      apply is_following_spec. split; [done|]. exists c, ts. by apply Hkeep.
    + intros a b Hab Hsome. simpl.
      destruct (f1 !! (a, b)) as [ts|] eqn:E1.
      * destruct Hcase as [[-> _] | [-> Hnone]]; [congruence|].
        destruct (decide ((User.id u, User.id u) = (a, b))) as [[= <- <-]|Hk];
          [|rewrite lookup_insert_ne in E1 by done; congruence].
        split; [done|]. split; [apply list_elem_of_here|done].
      * destruct (Hnew a b E1 Hsome) as (-> & Hin & Hnone).
        split; [done|]. split; [by apply list_elem_of_further|].
        intros c. destruct (follows !! (b, c)) as [ts|] eqn:Ec; [|done].
        apply Hkeep1 in Ec. rewrite Hnone in Ec. done.
Qed.

(** X14. [add_self_follows] never raises and only adds rows: every row
    stays, afterwards [is_following(u, u)] holds for every user, and a
    new row is the self-edge of a user that followed nobody.  A user
    that already follows somebody gets no self-edge. *)
Theorem add_self_follows_spec (clock : Z -> Z) (users : list User.t)
    (follows : gmap (Z * Z) Z) :
  exists follows',
    Graph.add_self_follows clock users follows = Py.Ok follows'
    /\ (forall k t, follows !! k = Some t -> follows' !! k = Some t)
    /\ (forall u, u ∈ users -> User.is_following u u follows' = true)
    /\ (forall a b,
          follows !! (a, b) = None -> is_Some (follows' !! (a, b)) ->
          a = b /\ a ∈ map User.id users
          /\ forall c, follows !! (a, c) = None)
    /\ (forall a c,
          follows !! (a, a) = None -> is_Some (follows !! (a, c)) ->
          follows' !! (a, a) = None).
Proof.
  destruct (add_self_follows_invariants clock users follows)
    as (f' & Hrun & Hkeep & Hself & Hnew).
  exists f'. repeat (split; [done|]).
  intros a c Haa [ts Hc].
  destruct (f' !! (a, a)) as [t|] eqn:E; [|done].
  destruct (Hnew a a Haa) as (_ & _ & Hnone); [by exists t|].
  rewrite Hnone in Hc. done.
Qed.

Lemma add_self_follows_spec_witness :
  exists follows',
    Graph.add_self_follows (fun k => 100 + k) Fixture.users Fixture.follows
    = Py.Ok follows'
    /\ follows' !! (1, 2) = Some 30
    /\ follows' !! (1, 1) = None
    /\ User.is_following Fixture.ann Fixture.ann follows' = true.
Proof.
  destruct (add_self_follows_spec (fun k => 100 + k) Fixture.users
              Fixture.follows)
    as (f' & Hrun & Hkeep & Hself & _ & Hmiss).
  exists f'. split; [exact Hrun|]. split; [|split].
  - apply Hkeep. reflexivity.
  - apply (Hmiss 1 2); [reflexivity|]. exists 30. reflexivity.
  - apply Hself. apply list_elem_of_here.
Defined.

(** ** The followed feed *)

Lemma join_rows_no_author (p : Post.t) (me : Z) (l : list Follow.row) :
  flat_map
    (fun r : Follow.row =>
       if bool_decide (Some (Follow.followed_id r) = None
                       /\ Follow.follower_id r = me)
       then [p] else []) l = [].
Proof.
  induction l as [|r l IH]; [done|]. cbn [flat_map].
  rewrite IH, app_nil_r. rewrite bool_decide_eq_false_2; [done|].
  by intros [? _].
Qed.

Lemma join_rows_author (p : Post.t) (me a : Z) (l : list Follow.row) :
  NoDup (l.*1) ->
  flat_map
    (fun r : Follow.row =>
       if bool_decide (Some (Follow.followed_id r) = Some a
                       /\ Follow.follower_id r = me)
       then [p] else []) l
  = if bool_decide ((me, a) ∈ l.*1) then [p] else [].
Proof.
  induction l as [|r l IH]; [done|]. cbn [flat_map fmap list_fmap].
  intros [Hr Hnd]%NoDup_cons. rewrite (IH Hnd).
  destruct r as [[x y] ts]. unfold Follow.followed_id, Follow.follower_id.
  cbn [fst snd] in *.
  destruct (decide (Some y = Some a /\ x = me)) as [Hc|Hc];
    [rewrite (bool_decide_eq_true_2 _ Hc)
    |rewrite (bool_decide_eq_false_2 _ Hc)].
  - destruct Hc as [Hy ->]. injection Hy as ->.
    rewrite (bool_decide_eq_false_2 _ Hr).
    rewrite bool_decide_eq_true_2; [done|]. apply list_elem_of_here.
  - simpl. apply (f_equal (fun c : bool => if c then [p] else [])).
    apply bool_decide_ext. rewrite elem_of_cons.
    split; [by right|]. intros [[= -> ->] | H]; [|done].
    exfalso. apply Hc. done.
Qed.

Lemma joined_posts_filter (self : User.t) (posts : list Post.t)
    (follows : gmap (Z * Z) Z) :
  Graph.joined_posts self posts follows
  = List.filter
      (fun p =>
         match Post.author_id p with
         | Some a => bool_decide (is_Some (follows !! (User.id self, a)))
         | None => false
         end)
      posts.
Proof.
  unfold Graph.joined_posts.
  induction posts as [|p posts IH]; [done|].
  cbn [flat_map List.filter]. rewrite IH.
  destruct (Post.author_id p) as [a|].
  - rewrite (join_rows_author p (User.id self) a)
      by apply NoDup_fst_map_to_list.
    assert (bool_decide ((User.id self, a) ∈ (map_to_list follows).*1)
            = bool_decide (is_Some (follows !! (User.id self, a)))) as ->.
    { apply bool_decide_ext. rewrite list_elem_of_fmap. split.
      - intros ([k ts] & -> & Hin). apply elem_of_map_to_list in Hin.
        by exists ts.
      - intros [ts Hts]. exists (User.id self, a, ts). split; [done|].
        by apply elem_of_map_to_list. }
    by destruct (bool_decide _).
  - by rewrite (join_rows_no_author p (User.id self)).
Qed.

Lemma List_filter_Permutation {A} (f : A -> bool) (l l' : list A) :
  l ≡ₚ l' -> List.filter f l ≡ₚ List.filter f l'.
Proof.
  induction 1 as [|x l l' _ IH|x y l|l l' l'' _ IH1 _ IH2]; simpl.
  - done.
  - destruct (f x); [by constructor|done].
  - destruct (f x), (f y); first [done | by constructor].
  - by etrans.
Qed.

(** X15. Whatever order the database returns rows in, [followed_posts]
    returns the posts whose author the user follows, and each as often
    as it is in [posts]: the join repeats no post, and a post without an
    author is never in the feed. *)
Theorem followed_posts_exact (query_order : list Post.t -> list Post.t)
    (self : User.t) (posts : list Post.t) (follows : gmap (Z * Z) Z) :
  (forall l, query_order l ≡ₚ l) ->
  Graph.followed_posts query_order self posts follows
  ≡ₚ List.filter
       (fun p =>
          match Post.author_id p with
          | Some a => bool_decide (is_Some (follows !! (User.id self, a)))
          | None => false
          end)
       posts
  /\ (forall p,
        p ∈ Graph.followed_posts query_order self posts follows
        <-> p ∈ posts
            /\ exists a,
                 Post.author_id p = Some a
                 /\ is_Some (follows !! (User.id self, a))).
Proof.
  intros Hperm. unfold Graph.followed_posts.
  split; [by rewrite Hperm, joined_posts_filter|].
  intros p. rewrite Hperm, joined_posts_filter, !list_elem_of_In, filter_In.
  split.
  - intros [Hin Hc]. split; [done|].
    destruct (Post.author_id p) as [a|]; [|done].
    exists a. split; [done|]. by apply bool_decide_eq_true in Hc.
  - intros [Hin (a & -> & Hsome)]. split; [done|].
    by apply bool_decide_eq_true.
Qed.

(** ann follows bob only: her feed is bob's post, whatever the order. *)
Lemma followed_posts_exact_witness :
  Graph.followed_posts reverse Fixture.ann Fixture.posts Fixture.follows
  ≡ₚ [Fixture.post 2 2].
Proof.
  apply (proj1 (followed_posts_exact reverse Fixture.ann Fixture.posts
                  Fixture.follows reverse_Permutation)).
Defined.

(** X16. After [unfollow(a, b)] the feed of a is its former feed without
    the posts of b, whatever order the database returns the rows of
    either query in; unfollowing oneself removes one's own posts from
    one's feed. *)
Theorem followed_posts_unfollow
    (order_after order_before : list Post.t -> list Post.t)
    (a b : User.t) (posts : list Post.t) (follows : gmap (Z * Z) Z) :
  (forall l, order_after l ≡ₚ l) ->
  (forall l, order_before l ≡ₚ l) ->
  Graph.followed_posts order_after a posts (User.unfollow a b follows)
  ≡ₚ List.filter
       (fun p => negb (bool_decide (Post.author_id p = Some (User.id b))))
       (Graph.followed_posts order_before a posts follows).
Proof.
  intros Hafter Hbefore. unfold Graph.followed_posts.
  rewrite Hafter, (List_filter_Permutation _ _ _ (Hbefore _)).
  rewrite !joined_posts_filter, unfollow_delete.
  induction posts as [|p posts IH]; simpl; [done|].
  destruct (Post.author_id p) as [x|] eqn:Hx; [|done].
  destruct (decide (x = User.id b)) as [->|Hne].
  - rewrite lookup_delete_eq.
    rewrite (bool_decide_eq_false_2 (is_Some None)) by (by intros [? ?]).
    destruct (bool_decide (is_Some _)); simpl; [|done].
    rewrite Hx. by rewrite bool_decide_eq_true_2.
  - rewrite lookup_delete_ne by congruence.
    destruct (bool_decide (is_Some _)); simpl; [|done].
    rewrite Hx. rewrite bool_decide_eq_false_2 by congruence. simpl.
    by constructor.
Qed.

(** After ann has unfollowed bob her feed is empty. *)
Lemma followed_posts_unfollow_witness :
  Graph.followed_posts reverse Fixture.ann Fixture.posts
    (User.unfollow Fixture.ann Fixture.bob Fixture.follows)
  ≡ₚ [].
Proof.
  etrans.
  - apply (followed_posts_unfollow reverse reverse Fixture.ann Fixture.bob
             Fixture.posts Fixture.follows reverse_Permutation
             reverse_Permutation).
  - vm_compute. done.
Defined.

(** ** The follow views *)

(** X17. The [unfollow] view leaves every row but the self-edge of
    the current user as it was, so it never removes an edge between two
    different users nor the self-edge of another user: it asks
    [is_following] first, which only holds for the user itself.  The
    table that it leaves is the table that it found, or that table
    without the self-edge of the current user. *)
Theorem view_unfollow_keeps_other_edges (users : list User.t)
    (current_user : User.t) (username : string) (follows : gmap (Z * Z) Z) :
  (forall k,
      k <> (User.id current_user, User.id current_user) ->
      (Views.unfollow users current_user username follows).2 !! k
      = follows !! k)
  /\ (forall a b,
        a <> b ->
        (Views.unfollow users current_user username follows).2 !! (a, b)
        = follows !! (a, b))
  /\ ((Views.unfollow users current_user username follows).2 = follows
      \/ (Views.unfollow users current_user username follows).2
         = delete (User.id current_user, User.id current_user) follows).
Proof.
  assert ((Views.unfollow users current_user username follows).2 = follows
          \/ (Views.unfollow users current_user username follows).2
             = delete (User.id current_user, User.id current_user) follows)
    as Hcases.
  { unfold Views.unfollow, permission_required. simpl.
    destruct (User.can current_user Permission.FOLLOW); simpl; [|by left].
    destruct (Views.first_by_username username users) as [user|];
      [|by left].
    destruct (User.is_following current_user user follows) eqn:E; simpl;
      [|by left].
    apply is_following_spec in E as [Heq _].
    right. by rewrite unfollow_delete, Heq. }
  assert (forall k,
             k <> (User.id current_user, User.id current_user) ->
             (Views.unfollow users current_user username follows).2 !! k
             = follows !! k) as Hkeep.
  { intros k Hk. destruct Hcases as [-> | ->]; [done|].
    by apply lookup_delete_ne. }
  split; [done|]. split; [|done].
  intros a b Hne. apply Hkeep. congruence.
Qed.

(** ann follows bob, asks to unfollow bob, and still follows bob. *)
Lemma view_unfollow_keeps_other_edges_witness :
  (Views.unfollow Fixture.users Fixture.ann "bob" Fixture.follows).2 !! (1, 2)
  = Some 30.
Proof.
  rewrite (proj1 (view_unfollow_keeps_other_edges Fixture.users Fixture.ann
                    "bob" Fixture.follows) (1, 2)).
  - reflexivity.
  - vm_compute. discriminate.
Defined.

(** ** Avatars *)

Lemma change_email_true_inv (md5_hexdigest : string -> string)
    (cfg : Config.t) (now : Z) (users : list User.t) (u u' : User.t)
    (t : Serializer.token) :
  User.change_email md5_hexdigest cfg now users u t = Py.Ok (true, u') ->
  exists address,
    u' = User.set_avatar_has (Some (md5_hexdigest address))
           (User.set_email (Some address) u).
Proof.
  unfold User.change_email, Py.try_except.
  destruct (Serializer.loads _ _ _) as [[data|v]|e]; [|discriminate..].
  simpl. destruct (Py.ne _ _); [discriminate|].
  destruct (Py.get data "new_email") as [| | | |address|]; try discriminate.
  destruct (User.email_registered address users); [discriminate|].
  intros [= <-]. by exists address.
Qed.

(** X18. The avatar does not follow the address: for a user with a
    stored hash, [gravatar] answers the same URL after a successful
    [change_email] as before it, built on the stored hash. *)
Theorem gravatar_stale_after_change_email (md5_hexdigest : string -> string)
    (cfg : Config.t) (now : Z) (users : list User.t) (u u' : User.t)
    (t : Serializer.token) (h : string) (is_secure : bool) (size : Z)
    (default rating : string) :
  User.avatar_hash u = Some h -> h <> "" ->
  User.change_email md5_hexdigest cfg now users u t = Py.Ok (true, u') ->
  Avatar.gravatar md5_hexdigest is_secure u' size default rating
  = Avatar.gravatar md5_hexdigest is_secure u size default rating
  /\ Avatar.gravatar md5_hexdigest is_secure u' size default rating
     = Py.Ok ((if is_secure then "https://secure.gravatar.com/avatar"
               else "http://www.gravatar.com/avatar")
              ++ "/" ++ h ++ "?s=" ++ pretty size
              ++ "&d=" ++ default ++ "&r=" ++ rating).
Proof.
  intros Hh Hne Hrun.
  apply change_email_true_inv in Hrun as [address ->].
  unfold Avatar.gravatar, Avatar.hash_or_digest. simpl. rewrite Hh.
  rewrite bool_decide_eq_false_2 by done. done.
Qed.

Lemma gravatar_stale_after_change_email_witness :
  Avatar.gravatar Sample.digest false
    (User.set_avatar_has (Some (Sample.digest "mary@example.org"))
       (User.set_email (Some "mary@example.org") Sample.mary))
    100 "identicon" "g"
  = Py.Ok "http://www.gravatar.com/avatar/md5:mary@example.com?s=100&d=identicon&r=g".
Proof.
  refine (proj2 (gravatar_stale_after_change_email Sample.digest Sample.cfg 5
                   [Sample.john; Sample.susan; Sample.mary] Sample.mary _
                   (User.generate_email_change_token Sample.cfg 0 Sample.mary
                      "mary@example.org" 3600)
                   (Sample.digest "mary@example.com") false 100
                   "identicon" "g" _ _ _)).
  - reflexivity.
  - discriminate.
  - vm_compute. reflexivity.
Defined.

(** X19. [gravatar] raises exactly when the user has neither a usable
    stored hash (the hash is missing or empty) nor an address; with an
    address and no usable hash it falls back to the digest of the
    address. *)
Theorem gravatar_fallback (md5_hexdigest : string -> string)
    (is_secure : bool) (u : User.t) (size : Z) (default rating : string) :
  (Avatar.gravatar md5_hexdigest is_secure u size default rating
   = Py.Raise Py.AttributeError
   <-> (User.avatar_hash u = None \/ User.avatar_hash u = Some "")
       /\ User.email u = None)
  /\ (forall e,
        User.avatar_hash u = None \/ User.avatar_hash u = Some "" ->
        User.email u = Some e ->
        Avatar.gravatar md5_hexdigest is_secure u size default rating
        = Py.Ok ((if is_secure then "https://secure.gravatar.com/avatar"
                  else "http://www.gravatar.com/avatar")
                 ++ "/" ++ md5_hexdigest e ++ "?s=" ++ pretty size
                 ++ "&d=" ++ default ++ "&r=" ++ rating)).
Proof.
  unfold Avatar.gravatar, Avatar.hash_or_digest. split.
  - destruct (User.avatar_hash u) as [h|]; [case_bool_decide as Hh|];
      destruct (User.email u); simpl; split;
      first [discriminate | intuition congruence].
  - intros e [-> | ->] ->; done.
Qed.

Lemma gravatar_fallback_witness :
  Avatar.gravatar Sample.digest true Fixture.ann 256 "retro" "pg"
  = Py.Ok "https://secure.gravatar.com/avatar/md5:ann@example.com?s=256&d=retro&r=pg".
Proof.
  refine (proj2 (gravatar_fallback Sample.digest true Fixture.ann 256
                   "retro" "pg") "ann@example.com" _ _).
  - left. reflexivity.
  - reflexivity.
Defined.

(** ** Posts and comments from JSON *)

(** X20. [Post.from_json] and [Comment.from_json] raise
    [ValidationError] exactly when the body is missing, [None] or empty;
    for any other text they build the object from the body alone, with
    the render of that body, so a [body_html] sent by the client is
    ignored. *)
Theorem from_json_validation (markdown : string -> string)
    (bleach_clean : string -> list string -> bool -> string)
    (bleach_linkify : string -> string) (pk now : Z)
    (json : gmap string Py.value) :
  (Api.Post_from_json markdown bleach_clean bleach_linkify pk now json
   = Api.Raise (Api.ValidationError "post does not have a body")
   <-> Py.get json "body" = Py.PNone \/ Py.get json "body" = Py.PStr "")
  /\ (Api.Comment_from_json markdown bleach_clean bleach_linkify pk now json
      = Api.Raise (Api.ValidationError "comment does not have a body")
      <-> Py.get json "body" = Py.PNone \/ Py.get json "body" = Py.PStr "")
  /\ (forall s v,
        Py.get json "body" = Py.PStr s -> s <> "" ->
        exists p c,
          Api.Post_from_json markdown bleach_clean bleach_linkify pk now
            (<["body_html" := v]> json) = Api.Return p
          /\ Post.body p = Some s
          /\ Post.body_html p
             = Some (bleach_linkify
                       (bleach_clean (markdown s) Post.allowed_tags true))
          /\ Api.Comment_from_json markdown bleach_clean bleach_linkify pk now
               (<["body_html" := v]> json) = Api.Return c
          /\ Comment.body c = Some s
          /\ Comment.body_html c
             = Some (bleach_linkify
                       (bleach_clean (markdown s) Comment.allowed_tags true))).
Proof.
  unfold Api.Post_from_json, Api.Comment_from_json. split; [|split].
  - destruct (Py.get json "body") as [| | | |s|]; try (intuition congruence).
    case_bool_decide as Hs; [subst; intuition congruence|].
    split; [discriminate|]. intros [H | H]; congruence.
  - destruct (Py.get json "body") as [| | | |s|]; try (intuition congruence).
    case_bool_decide as Hs; [subst; intuition congruence|].
    split; [discriminate|]. intros [H | H]; congruence.
  - intros s v Hbody Hne.
    assert (Py.get (<["body_html" := v]> json) "body" = Py.PStr s) as ->.
    { unfold Py.get in *. by rewrite lookup_insert_ne. }
    rewrite bool_decide_eq_false_2 by done.
    eexists _, _. repeat split.
Qed.

Lemma from_json_validation_witness :
  exists p,
    Api.Post_from_json (fun s => "<p>" ++ s ++ "</p>") (fun s _ _ => s)
      (fun s => s) 9 50
      (<["body_html" := Py.PStr "<script>"]> {[ "body" := Py.PStr "hi" ]})
    = Api.Return p
    /\ Post.body_html p = Some "<p>hi</p>".
Proof.
  destruct (proj2 (proj2 (from_json_validation
                            (fun s => "<p>" ++ s ++ "</p>") (fun s _ _ => s)
                            (fun s => s) 9 50 {[ "body" := Py.PStr "hi" ]}))
              "hi" (Py.PStr "<script>"))
    as (p & c & Hp & _ & Hhtml & _).
  - reflexivity.
  - discriminate.
  - exists p. split; [exact Hp|exact Hhtml].
Defined.

(** ** Moderation *)

Lemma comment_same_key (comments : list Comment.t) (c c' : Comment.t) :
  NoDup (map Comment.id comments) -> c ∈ comments -> c' ∈ comments ->
  Comment.id c = Comment.id c' -> c = c'.
Proof.
  induction comments as [|z comments IH]; simpl.
  - intros _ H. by apply elem_of_nil in H.
  - intros [Hz Hnd]%NoDup_cons [-> | Hc]%elem_of_cons [-> | Hc']%elem_of_cons
      Heq; [done| | |by apply IH].
    + exfalso. apply Hz. rewrite Heq. apply list_elem_of_fmap. by exists c'.
    + exfalso. apply Hz. rewrite <- Heq. apply list_elem_of_fmap. by exists c.
Qed.

Lemma get_or_404_Some (id : Z) (comments : list Comment.t) (c : Comment.t) :
  Views.get_or_404 id comments = Some c -> c ∈ comments /\ Comment.id c = id.
Proof.
  unfold Views.get_or_404. intros H. apply find_some in H as [Hin Hid].
  split; [by apply list_elem_of_In|]. by apply bool_decide_eq_true in Hid.
Qed.

Lemma get_or_404_None (id : Z) (comments : list Comment.t) :
  Views.get_or_404 id comments = None <-> id ∉ map Comment.id comments.
Proof.
  unfold Views.get_or_404. induction comments as [|z comments IH]; simpl.
  - split; [intros _ H; by apply elem_of_nil in H|done].
  - rewrite not_elem_of_cons. case_bool_decide as Hz.
    + split; [discriminate|]. intros [Hne _]. congruence.
    + rewrite IH. split; [by split|by intros [_ ?]].
Qed.

(** X21. [moderate_disable] needs MODERATE_COMMENTS (403 otherwise) and
    an existing comment (404 otherwise), and in either refusal changes
    nothing; when it goes through it sets [disabled] on the comment with
    that key and leaves every other comment and every other column as
    they were. *)
Theorem moderate_disable_spec (current_user : User.t) (id : Z)
    (comments : list Comment.t) :
  NoDup (map Comment.id comments) ->
  (User.can current_user Permission.MODERATE_COMMENTS = false ->
   Views.moderate_disable current_user id comments
   = (Views.Abort 403, comments))
  /\ (User.can current_user Permission.MODERATE_COMMENTS = true ->
      id ∉ map Comment.id comments ->
      Views.moderate_disable current_user id comments
      = (Views.Abort 404, comments))
  /\ (User.can current_user Permission.MODERATE_COMMENTS = true ->
      id ∈ map Comment.id comments ->
      Views.moderate_disable current_user id comments
      = (Views.Redirect [],
         map (fun c => if bool_decide (Comment.id c = id)
                       then Views.set_disabled (Some true) c else c)
             comments)).
Proof.
  intros Hnd. unfold Views.moderate_disable, permission_required. simpl.
  split; [by intros ->|]. split.
  - intros -> Hout. simpl.
    by rewrite (proj2 (get_or_404_None id comments) Hout).
  - intros -> Hin. simpl.
    destruct (Views.get_or_404 id comments) as [c0|] eqn:E;
      [|by apply get_or_404_None in E].
    apply get_or_404_Some in E as [Hc0 <-]. f_equal.
    unfold Views.session_add. apply map_ext_in. intros c Hc. simpl.
    case_bool_decide as Hid; [|done].
    by rewrite (comment_same_key comments c c0 Hnd
                  (proj2 (list_elem_of_In _ _) Hc) Hc0 Hid).
Qed.

Lemma moderate_disable_spec_witness :
  Views.moderate_disable Fixture.moe 2 Fixture.comments
  = (Views.Redirect [],
     [Fixture.comment 1 None; Fixture.comment 2 (Some true)]).
Proof.
  refine (proj2 (proj2 (moderate_disable_spec Fixture.moe 2
                          Fixture.comments _)) _ _).
  - apply (bool_decide_unpack _). vm_compute. exact I.
  - reflexivity.
  - apply list_elem_of_further, list_elem_of_here.
Defined.

(** X22. [moderate_enable] changes no row, whoever calls it: it assigns
    [disable], not [disabled], so a comment that [moderate_disable] has
    disabled stays disabled. *)
Theorem moderate_enable_changes_nothing (current_user : User.t) (id : Z)
    (comments : list Comment.t) :
  NoDup (map Comment.id comments) ->
  (Views.moderate_enable current_user id comments).2 = comments
  /\ (Views.moderate_enable current_user id
        (Views.moderate_disable current_user id comments).2).2
     = (Views.moderate_disable current_user id comments).2.
Proof.
  assert (forall cs, NoDup (map Comment.id cs) ->
                     (Views.moderate_enable current_user id cs).2 = cs) as Hen.
  { intros cs Hnd. unfold Views.moderate_enable, permission_required. simpl.
    destruct (User.can current_user Permission.MODERATE_COMMENTS); [|done].
    simpl. destruct (Views.get_or_404 id cs) as [c0|] eqn:E; [|done].
    apply get_or_404_Some in E as [Hc0 <-]. simpl.
    unfold Views.session_add. rewrite <- (map_id cs) at 2.
    apply map_ext_in. intros c Hc. case_bool_decide as Hid; [|done].
    symmetry. apply (comment_same_key cs c c0 Hnd); [|done..].
    by apply list_elem_of_In. }
  intros Hnd. split; [by apply Hen|]. apply Hen.
  unfold Views.moderate_disable, permission_required. simpl.
  destruct (User.can current_user Permission.MODERATE_COMMENTS); [|done].
  simpl. destruct (Views.get_or_404 id comments) as [c0|]; [|done]. simpl.
  unfold Views.session_add. rewrite map_map.
  erewrite map_ext; [exact Hnd|].
  intros c. simpl. by case_bool_decide.
Qed.

Lemma moderate_enable_changes_nothing_witness :
  (Views.moderate_enable Fixture.moe 2
     [Fixture.comment 1 None; Fixture.comment 2 (Some true)]).2
  = [Fixture.comment 1 None; Fixture.comment 2 (Some true)].
Proof.
  refine (proj1 (moderate_enable_changes_nothing Fixture.moe 2
                   [Fixture.comment 1 None; Fixture.comment 2 (Some true)]
                   _)).
  apply (bool_decide_unpack _). vm_compute. exact I.
Defined.

(** ** Creating users keeps the database consistent *)

(** X23. When [create_user] returns, the new user has a key that no
    user had, is appended to [users], primary keys stay distinct, the
    roles and every existing row of [follows] are untouched, and both
    ends of every row of [follows] are still keys of [users]. *)
Theorem create_user_invariants
    (generate_password_hash : string -> string -> string)
    (md5_hexdigest : string -> string) (cfg : Config.t)
    (salt : string) (now : Z) (kw : User.kwargs) (db db' : DB.t)
    (u : User.t) :
  DB.foreign_keys_ok db ->
  NoDup (map User.id (DB.users db)) ->
  DB.create_user generate_password_hash md5_hexdigest cfg salt now kw db
  = Py.Ok (db', u) ->
  (User.id u ∉ map User.id (DB.users db))
  /\ DB.users db' = (DB.users db ++ [u])%list
  /\ NoDup (map User.id (DB.users db'))
  /\ DB.roles db' = DB.roles db
  /\ (forall k t, DB.follows db !! k = Some t -> DB.follows db' !! k = Some t)
  /\ DB.foreign_keys_ok db'.
Proof.
  intros Hfk Hnd.
  unfold DB.create_user, User.init_follow, Follow.session_add. simpl.
  destruct (_ || _); [discriminate|].
  destruct (DB.follows db !! _) as [ts|] eqn:Hfree; simpl; [discriminate|].
  intros [= <- <-]. simpl.
  assert (DB.next_user_id (DB.users db) ∉ map User.id (DB.users db)) as Hnew.
  { intros Hin. apply next_user_id_above in Hin. lia. }
  split; [done|]. split; [done|]. split.
  { rewrite map_app. apply NoDup_app. split; [done|]. split.
    - intros x Hx [-> | H]%elem_of_cons; [done|]. by apply elem_of_nil in H.
    - apply NoDup_singleton. }
  split; [done|]. split.
  { intros k t Hk. rewrite lookup_insert_ne; [done|]. intros <-. congruence. }
  unfold DB.foreign_keys_ok. simpl. apply map_Forall_insert; [done|].
  rewrite map_app. split.
  - simpl. split; apply elem_of_app; right; apply list_elem_of_here.
  - intros k t Hk. destruct (Hfk k t Hk) as [H1 H2].
    split; apply elem_of_app; by left.
Qed.

Lemma create_user_invariants_witness :
  exists (db' : DB.t) (u : User.t),
    DB.create_user Sample.hash Sample.digest Sample.cfg "salt" 50
      Sample.kw_david Sample.db = Py.Ok (db', u)
    /\ (User.id u ∉ map User.id (DB.users Sample.db))
    /\ DB.foreign_keys_ok db'.
Proof.
  eexists _, _. split; [vm_compute; reflexivity|].
  match goal with
  | |- (?id_new ∉ _) /\ DB.foreign_keys_ok ?db_new =>
      destruct (create_user_invariants Sample.hash Sample.digest Sample.cfg
                  "salt" 50 Sample.kw_david Sample.db db_new
                  (User.init Sample.hash Sample.digest Sample.cfg
                     (DB.roles Sample.db) "salt" 3 50 Sample.kw_david))
        as (Hnew & _ & _ & _ & _ & Hfk)
  end.
  - apply (bool_decide_unpack _). vm_compute. exact I.
  - apply (bool_decide_unpack _). vm_compute. exact I.
  - vm_compute. reflexivity.
  - split; [exact Hnew|exact Hfk].
Defined.

(** X24. When the [follow] view returns it has removed and changed no
    row; the only row it can add is the edge from the current user to
    the user with the given name, stamped with the current time, and
    only for a current user that holds FOLLOW. *)
Theorem view_follow_only_adds (now : Z) (users : list User.t)
    (current_user : User.t) (username : string)
    (follows follows' : gmap (Z * Z) Z) (resp : Views.response) :
  Views.follow now users current_user username follows
  = Py.Ok (resp, follows') ->
  (forall k t, follows !! k = Some t -> follows' !! k = Some t)
  /\ (forall k,
        follows !! k = None -> is_Some (follows' !! k) ->
        User.can current_user Permission.FOLLOW = true
        /\ follows' !! k = Some now
        /\ exists user,
             Views.first_by_username username users = Some user
             /\ k = (User.id current_user, User.id user)).
Proof.
  assert (forall k : Z * Z, follows !! k = None -> is_Some (follows !! k) ->
                            False) as Hno
    by (intros k -> [? ?]; done).
  unfold Views.follow, permission_required. simpl.
  destruct (User.can current_user Permission.FOLLOW); simpl;
    [|intros [= <- <-]; split; [done|]; intros k H1 H2;
      destruct (Hno k H1 H2)].
  destruct (Views.first_by_username username users) as [user|];
    [|intros [= <- <-]; split; [done|]; intros k H1 H2;
      destruct (Hno k H1 H2)].
  unfold User.follow.
  destruct (User.is_following current_user user follows); simpl;
    [intros [= <- <-]; split; [done|]; intros k H1 H2;
     destruct (Hno k H1 H2)|].
  unfold Follow.session_add. simpl.
  destruct (follows !! (User.id current_user, User.id user)) eqn:Hfree;
    simpl; [discriminate|].
  intros [= <- <-]. split.
  - intros k t Hk. rewrite lookup_insert_ne; [done|]. intros <-. congruence.
  - intros k Hk Hsome.
    destruct (decide ((User.id current_user, User.id user) = k)) as [<-|Hne].
    + split; [done|]. split; [apply lookup_insert_eq|]. by exists user.
    + rewrite lookup_insert_ne in Hsome by done. destruct (Hno k Hk Hsome).
Qed.

Lemma view_follow_only_adds_witness :
  exists resp follows',
    Views.follow 40 Fixture.users Fixture.bob "ann" Fixture.follows
    = Py.Ok (resp, follows')
    /\ follows' !! (1, 2) = Some 30.
Proof.
  eexists _, _. split; [vm_compute; reflexivity|].
  match goal with
  | |- ?f !! _ = _ =>
      apply (proj1 (view_follow_only_adds 40 Fixture.users Fixture.bob "ann"
                      Fixture.follows f
                      (Views.Redirect ["You are now following ann."])
                      ltac:(vm_compute; reflexivity)))
  end.
  reflexivity.
Defined.
